(** * configurator.py: the configuration store and the edit session

    A shallow embedding of [src/configurator.py]: the [Config] class (a
    [dict] subclass that mirrors its string keys as instance attributes and
    reads and writes a YAML file, mangling string values), the
    [GoodFileNameValidator], and the two button handlers of the
    [Configurator] application that rebuild the store from the displayed
    rows and save it.

    Python strings are sequences of code points, Python dicts are
    insertion-ordered, exceptions are results of an error type, and the
    file system is an explicit state. *)

From Stdlib Require Import NArith ZArith Lia String Ascii DecimalString.
From stdpp Require Import base option list gmap.

Open Scope list_scope.
Set Warnings "-register-all".

(** ** Python strings *)

Module PyStr.

(** A [str] is a sequence of Unicode code points. *)
Definition codepoint : Type := N.
Definition str : Type := list codepoint.

Fixpoint py (s : string) : str :=
  match s with
  | EmptyString => []
  | String a s' => N_of_ascii a :: py s'
  end.

(** [seq[::-1]]: the interpreter computes the slice length, starts at the
    last index and steps the cursor down by one for every element. *)
Fixpoint slice_loop {A} (l : list A) (cur : nat) (n : nat) : list A :=
  match n with
  | O => []
  | S n' =>
      match l !! cur with
      | Some x => x :: slice_loop l (cur - 1) n'
      | None => []
      end
  end.

Definition slice_neg1 {A} (l : list A) : list A :=
  slice_loop l (length l - 1) (length l).

(** UTF-8, the byte encoding of a [str]; used to tell a reversal of code
    points from a reversal of bytes. *)
Definition utf8_char (c : codepoint) : list N :=
  (if c <? 0x80 then [c]
   else if c <? 0x800 then
     [0xC0 + c / 0x40; 0x80 + c mod 0x40]
   else if c <? 0x10000 then
     [0xE0 + c / 0x1000; 0x80 + (c / 0x40) mod 0x40; 0x80 + c mod 0x40]
   else
     [0xF0 + c / 0x40000; 0x80 + (c / 0x1000) mod 0x40;
      0x80 + (c / 0x40) mod 0x40; 0x80 + c mod 0x40])%N.

Definition utf8 (s : str) : list N := concat (map utf8_char s).

(** [\s] of [re] on a [str] pattern: the Unicode white space. *)
Definition is_space (c : codepoint) : bool :=
  ((0x09 <=? c) && (c <=? 0x0D) || (0x1C <=? c) && (c <=? 0x20)
   || (c =? 0x85) || (c =? 0xA0) || (c =? 0x1680)
   || (0x2000 <=? c) && (c <=? 0x200A)
   || (c =? 0x2028) || (c =? 0x2029) || (c =? 0x202F)
   || (c =? 0x205F) || (c =? 0x3000))%N.

Definition underscore : codepoint := 95%N.

(** [re.sub(r'\s+', '_', s)]: every maximal run of white space becomes one
    underscore. [in_run] tells that the previous character was white
    space. *)
Fixpoint sub_spaces (in_run : bool) (s : str) : str :=
  match s with
  | [] => []
  | c :: s' =>
      if is_space c then
        if in_run then sub_spaces true s' else underscore :: sub_spaces true s'
      else c :: sub_spaces false s'
  end.

Definition re_sub_spaces (s : str) : str := sub_spaces false s.

End PyStr.

Import PyStr.

(** ** Values, exceptions and the built-in dict *)

(** Keys of a mapping: YAML gives strings, and integers for keys such as
    [1:]; the code tells them apart with [isinstance(key, str)]. *)
Inductive key : Type :=
| KStr (s : str)
| KInt (n : Z).

(** What [yaml.safe_load] builds and [yaml.dump] accepts: scalars,
    sequences and mappings, nested at will. Numbers are the integers;
    floating-point scalars are left out.

    The last constructor is not a value of a file: it is the mapping that is,
    by identity, the attribute table of the store that holds it (see
    [py_setattr]). Its string-keyed items are the attributes of the store,
    wherever they are kept; [rest] is its other items. *)
Inductive value : Type :=
| VNone
| VBool (b : bool)
| VInt (n : Z)
| VStr (s : str)
| VSeq (l : list value)
| VMap (m : list (key * value))
| VTable (rest : list (key * value)).

#[global] Instance key_eq_dec : EqDecision key.
Proof. solve_decision. Defined.

(** [isinstance(value, str)] *)
Definition is_str (v : value) : bool :=
  match v with
  | VStr _ => true
  | _ => false
  end.

Inductive exn : Type :=
| KeyError
| AttributeError
| TypeError
| OSError.

Inductive result (A : Type) : Type :=
| Ok (a : A)
| Raise (e : exn).
Arguments Ok {A} a.
Arguments Raise {A} e.

(** How a call that returns nothing ends. *)
Inductive outcome : Type :=
| Done
| Raised (e : exn).

(** The built-in [dict]: unique keys, in insertion order. *)
Module PyDict.

Definition t : Type := list (key * value).

Fixpoint get (k : key) (d : t) : option value :=
  match d with
  | [] => None
  | (k', v') :: d' => if decide (k' = k) then Some v' else get k d'
  end.

(** [dict.__setitem__]: an existing key keeps its slot, a new key goes to
    the end. *)
Fixpoint setitem (k : key) (v : value) (d : t) : t :=
  match d with
  | [] => [(k, v)]
  | (k', v') :: d' =>
      if decide (k' = k) then (k', v) :: d' else (k', v') :: setitem k v d'
  end.

(** [dict.__delitem__]: [None] stands for the [KeyError] of a missing
    key. *)
Fixpoint delitem (k : key) (d : t) : option t :=
  match d with
  | [] => None
  | (k', v') :: d' =>
      if decide (k' = k) then Some d' else cons (k', v') <$> delitem k d'
  end.

Definition keys (d : t) : list key := d.*1.

(** [dict.update(other)]: the items of [other], stored one by one. *)
Definition update (d other : t) : t :=
  fold_left (fun acc kv => setitem kv.1 kv.2 acc) other d.

End PyDict.

(** ** Instance attributes

    An instance of a [dict] subclass has an attribute table besides its
    items. Methods live in the class, so an instance attribute of the same
    name hides the method. *)

Abbreviation attr_table := (gmap str value) (only parsing).

(** [setattr(obj, name, v)]. Three names belong to the runtime and never
    reach the table: [__class__] takes classes only, [__weakref__] is
    read-only, and [__dict__] takes a mapping, which becomes the table: the
    attributes are from then on the string-keyed items of that mapping. The
    result is the attributes after the call; the caller, who holds the
    mapping, records that it now is the table ([Config.rebind]). Setting the
    table to itself changes nothing. *)
Definition str_items (m : list (key * value)) : list (str * value) :=
  omap (fun kv => match kv.1 with KStr s => Some (s, kv.2) | KInt _ => None end) m.

Definition py_setattr (name : str) (v : value) (a : attr_table) : result attr_table :=
  if decide (name = py "__class__") then Raise TypeError
  else if decide (name = py "__weakref__") then Raise AttributeError
  else if decide (name = py "__dict__") then
    match v with
    | VMap m => Ok (list_to_map (str_items m))
    | VTable _ => Ok a
    | _ => Raise TypeError
    end
  else Ok (<[name := v]> a).

(** ** The attribute table held as an item

    After [obj['__dict__'] = m] the mapping [m] is an item of the store and
    its attribute table at once: one object. The item is then [VTable], and
    the attributes are the single record of its string-keyed items, so that a
    later [setattr] or [delattr] is seen through the item. The items of a
    mapping are read here in the order of the table's own encoding; the
    order of a mapping is seen neither by the equality of mappings nor in a
    file, where PyYAML sorts the keys. *)

(** The keys under which the table can be held. *)
Definition names_table (k : key) : bool :=
  match k with
  | KStr s => bool_decide (re_sub_spaces s = py "__dict__")
  | KInt _ => false
  end.

(** The items of a mapping that no attribute can reach. *)
Definition other_items (m : list (key * value)) : list (key * value) :=
  List.filter (fun kv => match kv.1 with KStr _ => false | KInt _ => true end) m.

Definition table_items (a : gmap str value) (rest : list (key * value))
  : list (key * value) :=
  ((fun nv => (KStr nv.1, nv.2)) <$> map_to_list a) ++ rest.

(** What a reader of the item sees: the table as it is now. *)
Definition deref (a : gmap str value) (v : value) : value :=
  match v with
  | VTable rest => VMap (table_items a rest)
  | _ => v
  end.

Definition deref_entry (a : gmap str value) (kv : key * value) : key * value :=
  if names_table kv.1 then (kv.1, deref a kv.2) else kv.

(** When the store gets another table, the mapping that was the table stays
    an item with the items it had. *)
Definition freeze (a : gmap str value) (d : list (key * value)) : list (key * value) :=
  map (deref_entry a) d.

(** [delattr(obj, name)]: only what is in the table can be deleted. *)
Definition py_delattr (name : str) (a : attr_table) : result attr_table :=
  if decide (name = py "__class__") then Raise TypeError
  else if decide (name = py "__weakref__") then Raise AttributeError
  else if decide (name = py "__dict__") then Ok ∅
  else
    match a !! name with
    | Some _ => Ok (delete name a)
    | None => Raise AttributeError
    end.

(** [obj.name(...)] for a method [name] of the class: when the table holds
    [name], the call reaches a stored value, and none of them is
    callable. *)
Definition call_method (name : str) (a : attr_table) : outcome :=
  match a !! name with
  | Some _ => Raised TypeError
  | None => Done
  end.

(** ** The YAML file and the file system

    PyYAML is a library the program calls. A file is kept as the sequence of
    blocks written to it, one per [yaml.dump({key: value}, file)]; read back
    as one document, the blocks are the entries of one top-level mapping.
    A file without a block is either empty, and holds no document, or it is
    the text [{}], the mapping without entries, which only another writer
    can have left. A value is kept as it was handed over: PyYAML writes the
    keys of a nested mapping sorted, which the equality of Python mappings
    does not see. *)

Abbreviation yaml_doc := (list (key * value)) (only parsing).

(** [yaml.dump({k: v}, file)] appends one block. *)
Definition yaml_dump (kv : key * value) (file : yaml_doc) : yaml_doc :=
  file ++ [kv].

(** What [yaml.safe_load] returns for a stream, which is the blocks of the
    file and whether its text is [{}]: [None] for an empty stream, the
    mapping without entries for [{}], else the mapping built by storing the
    entries in file order. *)
Inductive yaml_data : Type :=
| YNull
| YMapping (d : PyDict.t).

Definition yaml_safe_load (stream : yaml_doc * bool) : yaml_data :=
  match stream with
  | ([], false) => YNull
  | ([], true) => YMapping []
  | (file, _) => YMapping (PyDict.update [] file)
  end.

(** The host: which paths are directories, which paths [open(path, 'w')]
    accepts, the files with their blocks, and which of the files are the
    text [{}]. *)
Record filesystem : Type := mk_host {
  is_dir : str → bool;
  writable : str → bool;
  files : gmap str yaml_doc;
  empty_mappings : gset str
}.

(** A host none of whose files is the text [{}]. *)
Definition mk_fs (d w : str → bool) (f : gmap str yaml_doc) : filesystem :=
  mk_host d w f ∅.

(** What the program writes is blocks, never the text [{}]. *)
Definition write_file (path : str) (doc : yaml_doc) (fs : filesystem) : filesystem :=
  mk_host (is_dir fs) (writable fs) (<[path := doc]> (files fs))
          (empty_mappings fs ∖ {[path]}).

(** [open(path, 'w')] creates or truncates the file. *)
Definition open_w (path : str) (fs : filesystem) : result filesystem :=
  if writable fs path then Ok (write_file path [] fs) else Raise OSError.

(** [open(path, 'r')]: the stream to read. *)
Definition open_r (path : str) (fs : filesystem) : result (yaml_doc * bool) :=
  match files fs !! path with
  | Some doc => Ok (doc, bool_decide (path ∈ empty_mappings fs))
  | None => Raise OSError
  end.

(** [os.path.exists(path)]: [stat] of the empty path fails on every host. *)
Definition os_path_exists (fs : filesystem) (path : str) : bool :=
  match path with
  | [] => false
  | _ => is_dir fs path || bool_decide (is_Some (files fs !! path))
  end.

(** ** class Config(dict) *)

Module Config.

Record t : Type := mk {
  entries : PyDict.t;
  attrs : attr_table
}.

(** [Config()] *)
Definition empty : t := mk [] ∅.

Definition _mangle (value : str) : str := slice_neg1 value.

Definition _unmangle (value : str) : str := slice_neg1 value.

(** The items after a [setattr] that succeeded, under the name [name], of
    the value [v] just stored under [k]: when the name is [__dict__] and [v]
    a mapping, that mapping is the table from now on, and the item that was
    the table before keeps the items it had ([a] is the attributes before the
    call). For any other name the items are as they are. *)
Definition rebind (name : str) (k : key) (v : value) (a : attr_table)
    (d : PyDict.t) : PyDict.t :=
  if decide (name = py "__dict__") then
    match v with
    | VMap m => PyDict.setitem k (VTable (other_items m)) (freeze a d)
    | _ => d
    end
  else d.

(** The items after a [delattr] that succeeded under the name [name]:
    deleting [__dict__] gives the store a new, empty table, and the item
    that was the table keeps the items it had. *)
Definition unbind (name : str) (a : attr_table) (d : PyDict.t) : PyDict.t :=
  if decide (name = py "__dict__") then freeze a d else d.

(** The item is stored first; a string key is then mirrored as an
    attribute, under the key with its white space replaced. *)
Definition __setitem__ (self : t) (k : key) (v : value) : t * outcome :=
  let self1 := mk (PyDict.setitem k v (entries self)) (attrs self) in
  match k with
  | KStr s =>
      match py_setattr (re_sub_spaces s) v (attrs self1) with
      | Ok a =>
          (mk (rebind (re_sub_spaces s) k v (attrs self) (entries self1)) a, Done)
      | Raise e => (self1, Raised e)
      end
  | KInt _ => (self1, Done)
  end.

(** The item is deleted first; the attribute is then deleted under the key
    as it is. *)
Definition __delitem__ (self : t) (k : key) : t * outcome :=
  match PyDict.delitem k (entries self) with
  | None => (self, Raised KeyError)
  | Some d =>
      let self1 := mk d (attrs self) in
      match k with
      | KStr s =>
          match py_delattr s (attrs self1) with
          | Ok a => (mk (unbind s (attrs self) (entries self1)) a, Done)
          | Raise e => (self1, Raised e)
          end
      | KInt _ => (self1, Raised TypeError)
      end
  end.

(** [self[k]] as a reader sees it: the table, when the item is the table,
    with the items it has now. *)
Definition item (self : t) (k : key) : option value :=
  (fun v => (deref_entry (attrs self) (k, v)).2) <$> PyDict.get k (entries self).

(** [Config(d)]: the items of [d], each stored again through
    [__setitem__]. *)
Fixpoint init_loop (self : t) (items : list (key * value)) : t * outcome :=
  match items with
  | [] => (self, Done)
  | (k, v) :: rest =>
      match __setitem__ self k v with
      | (self', Done) => init_loop self' rest
      | (self', Raised e) => (self', Raised e)
      end
  end.

Definition __init__ (d : PyDict.t) : t * outcome :=
  init_loop (mk d ∅) d.

(** The body of the loop of [save], writing into the open file. A value
    that is not a string is dumped as it is; the item that is the table is
    dumped with the items the table has at that moment. *)
Fixpoint save_loop (self : t) (items : list (key * value)) (file : yaml_doc)
  : yaml_doc * outcome :=
  match items with
  | [] => (file, Done)
  | (k, v) :: rest =>
      match v with
      | VStr s =>
          match call_method (py "_mangle") (attrs self) with
          | Done => save_loop self rest (yaml_dump (k, VStr (_mangle s)) file)
          | Raised e => (file, Raised e)
          end
      | _ =>
          save_loop self rest (yaml_dump (deref_entry (attrs self) (k, v)) file)
      end
  end.

(** [save]: the file is opened, which empties it, and is closed with what
    was written, whether the loop ended or raised. *)
Definition save (self : t) (path : str) (fs : filesystem) : filesystem * outcome :=
  match open_w path fs with
  | Raise e => (fs, Raised e)
  | Ok fs0 =>
      match call_method (py "items") (attrs self) with
      | Raised e => (fs0, Raised e)
      | Done =>
          let '(doc, r) := save_loop self (entries self) [] in
          (write_file path doc fs0, r)
      end
  end.

Fixpoint load_loop (cfg : t) (items : list (key * value)) : result t :=
  match items with
  | [] => Ok cfg
  | (k, v) :: rest =>
      match v with
      | VStr s =>
          match call_method (py "_unmangle") (attrs cfg) with
          | Raised e => Raise e
          | Done =>
              match __setitem__ cfg k (VStr (_unmangle s)) with
              | (cfg', Done) => load_loop cfg' rest
              | (_, Raised e) => Raise e
              end
          end
      | _ =>
          match __setitem__ cfg k v with
          | (cfg', Done) => load_loop cfg' rest
          | (_, Raised e) => Raise e
          end
      end
  end.

(** [load]: [data.items()] on the [None] of an empty file is an
    [AttributeError]; on the mapping without entries the loop has nothing
    to do. *)
Definition load (path : str) (fs : filesystem) : result t :=
  match open_r path fs with
  | Raise e => Raise e
  | Ok stream =>
      match yaml_safe_load stream with
      | YNull => Raise AttributeError
      | YMapping data => load_loop empty data
      end
  end.

End Config.

(** ** class GoodFileNameValidator *)

Inductive ValidationResult : Type :=
| success
| failure (description : str).

Definition slash : codepoint := 47%N.
Definition newline : codepoint := 10%N.

(** [posixpath.dirname]: everything up to the last slash, without its
    trailing slashes unless it is made of slashes only. *)
Definition is_slash (c : codepoint) : bool := (c =? slash)%N.

Fixpoint head_to_last_slash (p : str) : str :=
  match p with
  | [] => []
  | c :: p' => if existsb is_slash p then c :: head_to_last_slash p' else []
  end.

Fixpoint lstrip_slash (p : str) : str :=
  match p with
  | [] => []
  | c :: p' => if is_slash c then lstrip_slash p' else p
  end.

Definition rstrip_slash (p : str) : str := rev (lstrip_slash (rev p)).

Definition os_path_dirname (p : str) : str :=
  let head := head_to_last_slash p in
  match head with
  | [] => head
  | _ => if forallb is_slash head then head else rstrip_slash head
  end.

Section Validator.

(** The Unicode table of word characters beyond ASCII ([re] is applied to a
    [str], so [\w] is not ASCII only). *)
Variable unicode_word : codepoint → bool.

Definition is_word (c : codepoint) : bool :=
  (if c <? 0x80 then
     (0x30 <=? c) && (c <=? 0x39) || (0x41 <=? c) && (c <=? 0x5A)
     || (0x61 <=? c) && (c <=? 0x7A) || (c =? 0x5F)
   else unicode_word c)%N.

(** The set [[\w\-. ]] *)
Definition in_class (c : codepoint) : bool :=
  (is_word c || (c =? 0x2D) || (c =? 0x2E) || (c =? 0x20))%N.

(** [re.match(r'^[\w\-. ]+$', fn) is not None]: one or more characters of
    the set from the start, up to the end of the string; [$] also matches
    before a newline that ends the string. [seen] tells that a character of
    the set was read. *)
Fixpoint class_plus_end (seen : bool) (s : str) : bool :=
  match s with
  | [] => seen
  | c :: s' =>
      if in_class c then class_plus_end true s'
      else seen && (c =? newline)%N && bool_decide (s' = [])
  end.

Definition re_match_filename (fn : str) : bool := class_plus_end false fn.

Definition is_valid_filename (fs : filesystem) (fn : str) : bool :=
  if negb (re_match_filename fn) then false
  else os_path_exists fs (os_path_dirname fn).

Definition validate (fs : filesystem) (value : str) : ValidationResult :=
  if is_valid_filename fs value then success
  else failure (py "Invalid filename or path.").

End Validator.

(** ** class Configurator(App) *)

Record notification : Type := mk_notification {
  message : str;
  title : str;
  timeout : Z
}.

(** The application: its store and displayed keys, the rows on screen (the
    values of each row's two inputs), the value of the file name input, the
    notifications shown so far, and whether [exit] was called. *)
Record Configurator : Type := mk_app {
  config : Config.t;
  keys : list key;
  rows : list (str * str);
  config_filename : str;
  notifications : list notification;
  exited : bool
}.

Definition new_key : str := py "new_key".

(** The dict comprehension of [on_save_button_pressed]: the rows in order,
    without those whose key is ['new_key']. *)
Fixpoint rows_dict (rs : list (str * str)) (acc : PyDict.t) : PyDict.t :=
  match rs with
  | [] => acc
  | (k, v) :: rest =>
      if negb (bool_decide (k = new_key))
      then rows_dict rest (PyDict.setitem (KStr k) (VStr v) acc)
      else rows_dict rest acc
  end.

(** [dict.update] on a [Config] is the built-in one: it stores the items
    without going through [Config.__setitem__]. *)
Definition config_update (c : Config.t) (other : PyDict.t) : Config.t :=
  Config.mk (PyDict.update (Config.entries c) other) (Config.attrs c).

Definition saved_notification (fn : str) : notification :=
  mk_notification (py "Configuration saved to " ++ fn ++ py " successfully.")
                  (py "Saved") 3.

Definition notify (self : Configurator) (n : notification) : Configurator :=
  mk_app (config self) (keys self) (rows self) (config_filename self)
         (notifications self ++ [n]) (exited self).

Definition exit (self : Configurator) : Configurator :=
  mk_app (config self) (keys self) (rows self) (config_filename self)
         (notifications self) true.

(** [on_save_button_pressed]: the store is a new [Config()], which has no
    attribute, so [update], [keys] and [save] on it are the methods; it is
    filled from the rows, the displayed keys are taken from it, it is saved
    under the name in the input, and the notification comes last. An error
    of [save] leaves the handler at once. *)
Definition on_save_button_pressed (self : Configurator) (notify_ : bool)
    (fs : filesystem) : Configurator * filesystem * outcome :=
  let fn := config_filename self in
  let cfg := config_update Config.empty (rows_dict (rows self) []) in
  let self1 := mk_app cfg (PyDict.keys (Config.entries cfg)) (rows self)
                      (config_filename self) (notifications self) (exited self) in
  match Config.save cfg fn fs with
  | (fs', Raised e) => (self1, fs', Raised e)
  | (fs', Done) =>
      if notify_ then (notify self1 (saved_notification fn), fs', Done)
      else (self1, fs', Done)
  end.

(** [on_quit_button_pressed]: the save handler with [notify=False], then
    [exit()]. *)
Definition on_quit_button_pressed (self : Configurator) (fs : filesystem)
  : Configurator * filesystem * outcome :=
  match on_save_button_pressed self false fs with
  | (self', fs', Raised e) => (self', fs', Raised e)
  | (self', fs', Done) => (exit self', fs', Done)
  end.

(** A displayed row as an item of the store: both inputs hold strings. *)
Definition row_item (r : str * str) : key * value := (KStr r.1, VStr r.2).

(** The rows that are kept: those whose key is not the sentinel. *)
Definition kept_rows (rs : list (str * str)) : list (str * str) :=
  filter (λ r, r.1 ≠ new_key) rs.

(** ** The rule of the specification for stored values

    The transform [f] on a value that is a string at the top level, every
    other value as it is, with the strings nested in it. *)
Definition transform_top_level (f : str → str) (v : value) : value :=
  match v with
  | VStr s => VStr (f s)
  | _ => v
  end.

Definition transform_entry (f : str → str) (kv : key * value) : key * value :=
  (kv.1, transform_top_level f kv.2).

(** [d'] is [d] with [f] applied to the values that are strings at the top
    level and to nothing else: same length, same key at every position, a
    string replaced by its image, any other value kept. *)
Definition top_level_strings_only (f : str → str) (d d' : list (key * value)) : Prop :=
  length d' = length d
  ∧ ∀ i k v, d !! i = Some (k, v) →
      ∃ w, d' !! i = Some (k, w)
           ∧ (is_str v = false → w = v)
           ∧ (∀ s, v = VStr s → w = VStr (f s)).

(** [doc] holds, position by position, the entries of [store] with every
    value a string and mangled. *)
Definition all_mangled (store doc : list (key * value)) : Prop :=
  length doc = length store
  ∧ ∀ i k v, store !! i = Some (k, v) →
      ∃ s, v = VStr s ∧ doc !! i = Some (k, VStr (Config._mangle s)).

(** Keys whose attribute is stored in the table like any other: the name
    is none of the runtime's, and not the name of the method that [load]
    calls. *)
Definition plain_key (k : key) : Prop :=
  match k with
  | KStr s =>
      re_sub_spaces s ∉ [py "__class__"; py "__weakref__"; py "__dict__";
                         py "_unmangle"]
  | KInt _ => True
  end.

(** A host where every path can be written and no file exists yet. *)
Definition fresh_fs : filesystem := mk_fs (λ _, false) (λ _, true) ∅.

(** ** The other handlers of the application *)

(** [on_load]: the store is loaded from [config.yaml], the displayed keys
    are its keys, the index is 0. The result is the three attributes that
    the handler assigns; [self.config.keys()] goes through the attribute
    table of the loaded store. *)
Definition on_load (fs : filesystem) : result (Config.t * list key * Z) :=
  match Config.load (py "config.yaml") fs with
  | Raise e => Raise e
  | Ok cfg =>
      match call_method (py "keys") (Config.attrs cfg) with
      | Raised e => Raise e
      | Done => Ok (cfg, PyDict.keys (Config.entries cfg), 0%Z)
      end
  end.

Section Screen.

(** The widgets of the framework, and its constructor
    [Input(value, id=..., classes=...)], which decides what it accepts as a
    value and as an id. *)
Variable widget : Type.
Variable Input : value → value → str → result widget.

Record row : Type := mk_row {
  row_k : widget;
  row_v : widget
}.

(** A key as the object it is. *)
Definition key_value (k : key) : value :=
  match k with
  | KStr s => VStr s
  | KInt n => VInt n
  end.

(** [f'{k}'] *)
Definition format_key (k : key) : str :=
  match k with
  | KStr s => s
  | KInt n => py (NilZero.string_of_int (Z.to_int n))
  end.

(** [Row(k, v)]: after the container's own initialiser, which gets no
    argument, the input of the key, with the key as its id, then the input
    of the value, with the id [f'{k}_value']. *)
Definition Row (k : key) (v : value) : result row :=
  match Input (key_value k) (key_value k) (py "keystr") with
  | Raise e => Raise e
  | Ok wk =>
      match Input v (VStr (format_key k ++ py "_value")) (py "valuestr") with
      | Raise e => Raise e
      | Ok wv => Ok (mk_row wk wv)
      end
  end.

(** The list comprehension of [compose]: for every displayed key, in order,
    a [Row] of the key and of [self.config.get(key, '')]. *)
Fixpoint compose_loop (cfg : Config.t) (ks : list key) : result (list row) :=
  match ks with
  | [] => Ok []
  | k :: rest =>
      match call_method (py "get") (Config.attrs cfg) with
      | Raised e => Raise e
      | Done =>
          match Row k (default (VStr []) (Config.item cfg k)) with
          | Raise e => Raise e
          | Ok r =>
              match compose_loop cfg rest with
              | Ok rs => Ok (r :: rs)
              | Raise e => Raise e
              end
          end
      end
  end.

Definition compose_rows (self : Configurator) : result (list row) :=
  compose_loop (config self) (keys self).

(** One [Row] for every entry of a list, in order, up to the first that
    cannot be built. *)
Fixpoint build_rows (d : list (key * value)) : result (list row) :=
  match d with
  | [] => Ok []
  | (k, v) :: rest =>
      match Row k v with
      | Raise e => Raise e
      | Ok r =>
          match build_rows rest with
          | Ok rs => Ok (r :: rs)
          | Raise e => Raise e
          end
      end
  end.

End Screen.

Arguments mk_row {widget} _ _.
Arguments row_k {widget} _.
Arguments row_v {widget} _.

(** An [Input] for the examples: it takes strings only, as value and as
    id, and keeps them. *)
Definition text_input (v id : value) (classes : str) : result (str * str * str) :=
  match v, id with
  | VStr s, VStr i => Ok (s, i, classes)
  | _, _ => Raise TypeError
  end.

(** [on_add_row_button_pressed]: the save handler with [notify=False], then
    ['new_key'] at the end of the displayed keys; [refresh(recompose=True)]
    asks the framework to run [compose] again later and changes nothing
    here. *)
Definition on_add_row_button_pressed (self : Configurator) (fs : filesystem)
  : Configurator * filesystem * outcome :=
  match on_save_button_pressed self false fs with
  | (self', fs', Raised e) => (self', fs', Raised e)
  | (self', fs', Done) =>
      (mk_app (config self') (keys self' ++ [KStr new_key]) (rows self')
              (config_filename self') (notifications self') (exited self'),
       fs', Done)
  end.

(** ** Names used to state the properties *)

(** The attribute names that the runtime keeps for itself. *)
Definition runtime_names : list str :=
  [py "__class__"; py "__weakref__"; py "__dict__"].

(** The methods that the program calls on a store. *)
Definition method_names : list str :=
  [py "_unmangle"; py "_mangle"; py "items"; py "keys"; py "get"].

(** An item that is the table, and a list of items without one. *)
Definition holds_table (kv : key * value) : Prop :=
  names_table kv.1 = true ∧ ∃ rest, kv.2 = VTable rest.

Definition no_table (d : list (key * value)) : Prop :=
  Forall (λ kv, ¬ holds_table kv) d.

(** The block that [save] writes for an entry of [self]. *)
Definition written (self : Config.t) (kv : key * value) : key * value :=
  deref_entry (Config.attrs self) (transform_entry Config._mangle kv).

(** The attribute of [k], if it has one, is none of [names]. *)
Definition key_avoids (names : list str) (k : key) : Prop :=
  match k with
  | KStr s => re_sub_spaces s ∉ names
  | KInt _ => True
  end.

(** A key that the program can mirror and keep calling its methods: its
    attribute is no name of the runtime and no name of a method. *)
Definition ordinary_key (k : key) : Prop :=
  key_avoids (runtime_names ++ method_names) k.

(** No attribute name has white space in it. *)
Definition attrs_no_space (a : gmap str value) : Prop :=
  ∀ n, is_Some (a !! n) → Forall (λ c, is_space c = false) n.

(** * Properties *)

(** ** Strings *)

Lemma slice_loop_rev {A} (l : list A) (n : nat) :
  n ≤ length l → slice_loop l (n - 1) n = rev (take n l).
Proof.
  induction n as [|n IH]; intros Hn; [reflexivity|].
  assert (Hlt : n < length l) by lia.
  destruct (lookup_lt_is_Some_2 l n Hlt) as [x Hx].
  cbn [slice_loop]. replace (S n - 1) with n by lia. rewrite Hx.
  rewrite IH by lia.
  rewrite (take_S_r l n x Hx), rev_app_distr. reflexivity.
Qed.

Lemma slice_neg1_rev {A} (l : list A) : slice_neg1 l = rev l.
Proof.
  unfold slice_neg1. rewrite slice_loop_rev by lia.
  now rewrite firstn_all.
Qed.

Example re_sub_spaces_runs :
  re_sub_spaces (py " a " ++ [9%N] ++ py " b c d" ++ [0x1C%N] ++ py "e ")
  = py "_a_b_c_d_e_".
Proof. reflexivity. Qed.

(** ** The built-in dict *)

Section PyDictFacts.

Import PyDict.

Implicit Types (d : PyDict.t) (k : key) (v : value).

Lemma keys_app d1 d2 : keys (d1 ++ d2) = keys d1 ++ keys d2.
Proof. unfold keys. apply fmap_app. Qed.

Lemma setitem_notin d k v : k ∉ keys d → setitem k v d = d ++ [(k, v)].
Proof.
  induction d as [|[k' v'] d IH]; intros Hk; [reflexivity|].
  cbn in *. apply not_elem_of_cons in Hk as [Hne Hk].
  destruct (decide (k' = k)) as [->|_]; [congruence|].
  now rewrite IH.
Qed.

Lemma setitem_in d k v :
  k ∈ keys d →
  ∃ d1 v0 d2, d = d1 ++ ((k, v0) :: d2) ∧ (k ∉ keys d1)
              ∧ setitem k v d = d1 ++ ((k, v) :: d2).
Proof.
  induction d as [|[k' v'] d IH]; intros Hk; [inversion Hk|].
  cbn. destruct (decide (k' = k)) as [->|Hne].
  - exists [], v', d. repeat split. apply not_elem_of_nil.
  - cbn in Hk. apply elem_of_cons in Hk as [Heq|Hk]; [congruence|].
    destruct (IH Hk) as (d1 & v0 & d2 & -> & Hd1 & ->).
    exists ((k', v') :: d1), v0, d2. repeat split.
    cbn. apply not_elem_of_cons. split; [congruence|assumption].
Qed.

Lemma keys_setitem_in d k v : k ∈ keys d → keys (setitem k v d) = keys d.
Proof.
  intros Hk. destruct (setitem_in d k v Hk) as (d1 & v0 & d2 & -> & _ & ->).
  now rewrite !keys_app.
Qed.

Lemma setitem_wf d k v : NoDup (keys d) → NoDup (keys (setitem k v d)).
Proof.
  intros Hd. destruct (decide (k ∈ keys d)) as [Hk|Hk].
  - now rewrite keys_setitem_in.
  - rewrite setitem_notin, keys_app by assumption. cbn.
    apply NoDup_app. repeat split; [assumption| |apply NoDup_singleton].
    intros x Hx Hx'. apply list_elem_of_singleton in Hx'. now subst.
Qed.

Lemma get_setitem_eq d k v : get k (setitem k v d) = Some v.
Proof.
  induction d as [|[k' v'] d IH]; cbn.
  - now rewrite decide_True.
  - destruct (decide (k' = k)) as [->|Hne]; cbn.
    + now rewrite decide_True.
    + now rewrite decide_False.
Qed.

Lemma get_setitem_ne d k k' v : k ≠ k' → get k' (setitem k v d) = get k' d.
Proof.
  intros Hne. induction d as [|[k0 v0] d IH]; cbn.
  - now rewrite decide_False.
  - destruct (decide (k0 = k)) as [->|Hne0]; cbn.
    + now rewrite !decide_False.
    + destruct (decide (k0 = k')); [reflexivity|assumption].
Qed.

Lemma delitem_notin d k : k ∉ keys d → delitem k d = None.
Proof.
  induction d as [|[k' v'] d IH]; intros Hk; [reflexivity|].
  cbn in *. apply not_elem_of_cons in Hk as [Hne Hk].
  rewrite decide_False by congruence. now rewrite IH.
Qed.

Lemma delitem_in d k :
  k ∈ keys d →
  ∃ d1 v0 d2, d = d1 ++ ((k, v0) :: d2) ∧ (k ∉ keys d1)
              ∧ delitem k d = Some (d1 ++ d2).
Proof.
  induction d as [|[k' v'] d IH]; intros Hk; [inversion Hk|].
  cbn. destruct (decide (k' = k)) as [->|Hne].
  - exists [], v', d. repeat split. apply not_elem_of_nil.
  - cbn in Hk. apply elem_of_cons in Hk as [Heq|Hk]; [congruence|].
    destruct (IH Hk) as (d1 & v0 & d2 & -> & Hd1 & ->).
    exists ((k', v') :: d1), v0, d2. repeat split.
    cbn. apply not_elem_of_cons. split; [congruence|assumption].
Qed.

Lemma update_app d0 d : NoDup (keys (d0 ++ d)) → update d0 d = d0 ++ d.
Proof.
  revert d0. induction d as [|[k v] d IH]; intros d0 Hnd.
  - now rewrite app_nil_r.
  - unfold update in *. cbn [fold_left fst snd].
    assert (Hk : k ∉ keys d0).
    { rewrite keys_app in Hnd. apply NoDup_app in Hnd as (_ & Hdisj & _).
      intros Hin. apply (Hdisj k Hin). cbn. left. }
    rewrite setitem_notin by assumption.
    rewrite IH; rewrite <- app_assoc; [reflexivity|assumption].
Qed.

Lemma update_nil d : NoDup (keys d) → update [] d = d.
Proof. intros Hd. now apply (update_app [] d). Qed.

Lemma keys_setitem d k v :
  keys (setitem k v d) = if decide (k ∈ keys d) then keys d else keys d ++ [k].
Proof.
  case_decide; [now apply keys_setitem_in|].
  rewrite setitem_notin by assumption. now rewrite keys_app.
Qed.

Lemma keys_setitem_congr d d' k v v' :
  keys d = keys d' → keys (setitem k v d) = keys (setitem k v' d').
Proof. intros H. rewrite !keys_setitem, H. reflexivity. Qed.

Lemma keys_setitem_twice d k v v' :
  keys (setitem k v (setitem k v' d)) = keys (setitem k v' d).
Proof.
  rewrite (keys_setitem (setitem k v' d)). case_decide as H; [reflexivity|].
  exfalso. apply H. rewrite keys_setitem. case_decide; [assumption|].
  apply elem_of_app. right. left.
Qed.

Lemma keys_update_congr other d d' :
  keys d = keys d' → keys (update d other) = keys (update d' other).
Proof.
  revert d d'. induction other as [|[k v] other IH]; intros d d' H; [exact H|].
  unfold update in *. cbn. apply IH. now apply keys_setitem_congr.
Qed.

End PyDictFacts.

(** ** The value transform *)

Lemma mangle_round_trip (s : str) : Config._unmangle (Config._mangle s) = s.
Proof.
  unfold Config._unmangle, Config._mangle.
  rewrite !slice_neg1_rev. apply rev_involutive.
Qed.

(** C2. [_unmangle] undoes [_mangle] on every string: the empty one, and
    strings with characters of several bytes alike. Both are functions from
    [str] to [str], defined on every string, with no error result. *)
Theorem unmangle_mangle :
  (∀ s : str, Config._unmangle (Config._mangle s) = s)
  ∧ Config._unmangle (Config._mangle []) = []
  ∧ Config._unmangle (Config._mangle [0x68; 0xE9; 0x4E2D; 0x1F600]%N)
    = [0x68; 0xE9; 0x4E2D; 0x1F600]%N.
Proof.
  split; [exact mangle_round_trip|]. split; apply mangle_round_trip.
Qed.

(** C9. The transform is the reversal of the sequence of code points:
    ["hello"] becomes ["olleh"] and back, and on a string with a character
    of two bytes the result is not the reversal of the UTF-8 bytes. *)
Theorem mangle_reverses_codepoints :
  (∀ s : str, Config._mangle s = rev s)
  ∧ (∀ s : str, Config._unmangle s = rev s)
  ∧ Config._mangle (py "hello") = py "olleh"
  ∧ Config._unmangle (py "olleh") = py "hello"
  ∧ utf8 (Config._mangle [0x68; 0xE9]%N) = [0xC3; 0xA9; 0x68]%N
  ∧ rev (utf8 [0x68; 0xE9]%N) = [0xA9; 0xC3; 0x68]%N.
Proof.
  split; [intros s; apply slice_neg1_rev|].
  split; [intros s; apply slice_neg1_rev|].
  repeat split; reflexivity.
Qed.

(** ** [__setitem__] and [__delitem__] *)

Lemma deref_entry_no_table (a : gmap str value) (kv : key * value) :
  ¬ holds_table kv → deref_entry a kv = kv.
Proof.
  intros H. unfold deref_entry. destruct (names_table kv.1) eqn:Hk; [|reflexivity].
  destruct kv as [k v]. destruct v; try reflexivity.
  exfalso. apply H. split; [exact Hk|]. now eexists.
Qed.

Lemma freeze_no_table (a : gmap str value) (d : list (key * value)) :
  no_table d → freeze a d = d.
Proof.
  intros H. unfold freeze. rewrite <- (map_id d) at 2. apply map_ext_Forall.
  eapply Forall_impl; [exact H|]. intros kv. apply deref_entry_no_table.
Qed.

Lemma keys_freeze (a : gmap str value) (d : list (key * value)) :
  PyDict.keys (freeze a d) = PyDict.keys d.
Proof.
  unfold PyDict.keys, freeze. induction d as [|kv d IH]; [reflexivity|].
  cbn. rewrite IH. f_equal. unfold deref_entry. now destruct (names_table kv.1).
Qed.

Lemma rebind_other (name : str) (k : key) (v : value) (a : gmap str value)
    (d : PyDict.t) :
  name ≠ py "__dict__" → Config.rebind name k v a d = d.
Proof. intros H. unfold Config.rebind. now rewrite decide_False. Qed.

Lemma unbind_other (name : str) (a : gmap str value) (d : PyDict.t) :
  name ≠ py "__dict__" → Config.unbind name a d = d.
Proof. intros H. unfold Config.unbind. now rewrite decide_False. Qed.

Lemma key_avoids_table (k : key) :
  key_avoids [py "__dict__"] k →
  match k with KStr s => re_sub_spaces s ≠ py "__dict__" | KInt _ => True end.
Proof.
  destruct k as [s|n]; cbn [key_avoids]; [|trivial].
  intros H E. apply H. rewrite E. left.
Qed.

Lemma entries_setitem (self : Config.t) (k : key) (v : value) :
  key_avoids [py "__dict__"] k →
  Config.entries (Config.__setitem__ self k v).1
  = PyDict.setitem k v (Config.entries self).
Proof.
  intros Hk. apply key_avoids_table in Hk.
  unfold Config.__setitem__. destruct k as [s|n]; [|reflexivity].
  cbn [Config.entries Config.attrs]. destruct (py_setattr _ _ _); [|reflexivity].
  cbn [fst Config.entries]. now apply rebind_other.
Qed.

Lemma entries_delitem (self : Config.t) (k : key) (d : PyDict.t) :
  no_table (Config.entries self) →
  PyDict.delitem k (Config.entries self) = Some d →
  Config.entries (Config.__delitem__ self k).1 = d.
Proof.
  intros Hnt Hd. unfold Config.__delitem__. rewrite Hd.
  destruct k as [s|n]; [|reflexivity].
  cbn [Config.entries Config.attrs]. destruct (py_delattr _ _); [|reflexivity].
  cbn [fst Config.entries]. unfold Config.unbind.
  case_decide; [|reflexivity]. apply freeze_no_table.
  destruct (decide (KStr s ∈ PyDict.keys (Config.entries self))) as [Hin|Hin].
  - destruct (delitem_in _ _ Hin) as (d1 & v0 & d2 & E & _ & E').
    rewrite E' in Hd. inversion Hd; subst d. unfold no_table in *.
    rewrite E in Hnt. apply Forall_app in Hnt as [H1 H2].
    apply Forall_cons in H2 as [_ H2]. now apply Forall_app.
  - now rewrite delitem_notin in Hd.
Qed.

(** C7. A store whose attribute table is one of its items: after
    [obj['__dict__'] = {}], storing the new key [x] appends it and, through
    the attribute of [x], also changes the mapping held under [__dict__];
    deleting [x] changes that mapping again. Every call ends without
    error; the keys and their order are as they should be. *)
Theorem setitem_delitem_change_table_item :
  let c1 := Config.__setitem__ Config.empty (KStr (py "__dict__")) (VMap []) in
  let c2 := Config.__setitem__ c1.1 (KStr (py "x")) (VInt 1) in
  let c3 := Config.__delitem__ c2.1 (KStr (py "x")) in
  (c1.2 = Done ∧ c2.2 = Done ∧ c3.2 = Done)
  ∧ (PyDict.keys (Config.entries c1.1) = [KStr (py "__dict__")]
     ∧ PyDict.keys (Config.entries c2.1) = [KStr (py "__dict__"); KStr (py "x")]
     ∧ PyDict.keys (Config.entries c3.1) = [KStr (py "__dict__")])
  ∧ Config.item c1.1 (KStr (py "__dict__")) = Some (VMap [])
  ∧ Config.item c2.1 (KStr (py "__dict__")) = Some (VMap [(KStr (py "x"), VInt 1)])
  ∧ Config.item c3.1 (KStr (py "__dict__")) = Some (VMap []).
Proof. repeat split; vm_compute; reflexivity. Qed.

(** On a store none of whose items is the table, and for a key that is not
    mirrored as [__dict__]: after [__setitem__] the keys are still unique,
    the key holds the new value and no other key changed; an existing key
    keeps its slot; a new key is the last one. After [__delitem__] of a
    present key that entry is gone, the entries before and after it are
    joined in their order, and the keys are still unique. This is the state
    of the mapping after the call, also when the attribute step of the call
    raised. *)
Lemma plain_store_keeps_order (self : Config.t) (k : key) (v : value) :
  NoDup (PyDict.keys (Config.entries self)) →
  no_table (Config.entries self) →
  key_avoids [py "__dict__"] k →
  let set := (Config.__setitem__ self k v).1 in
  let del := (Config.__delitem__ self k).1 in
  (NoDup (PyDict.keys (Config.entries set))
   ∧ PyDict.get k (Config.entries set) = Some v
   ∧ ∀ k', k' ≠ k →
       PyDict.get k' (Config.entries set) = PyDict.get k' (Config.entries self))
  ∧ (k ∈ PyDict.keys (Config.entries self) →
     ∃ d1 v0 d2, Config.entries self = d1 ++ ((k, v0) :: d2)
                 ∧ Config.entries set = d1 ++ ((k, v) :: d2))
  ∧ (k ∉ PyDict.keys (Config.entries self) →
     Config.entries set = Config.entries self ++ [(k, v)])
  ∧ (k ∈ PyDict.keys (Config.entries self) →
     ∃ d1 v0 d2, Config.entries self = d1 ++ ((k, v0) :: d2)
                 ∧ Config.entries del = d1 ++ d2
                 ∧ NoDup (PyDict.keys (Config.entries del))
                 ∧ (k ∉ PyDict.keys (Config.entries del))).
Proof.
  intros Hnd Hnt Hav set del. subst set del. rewrite entries_setitem by exact Hav.
  split; [|split; [|split]].
  - split; [now apply setitem_wf|]. split; [apply get_setitem_eq|].
    intros k' Hne. apply get_setitem_ne. congruence.
  - intros Hin. destruct (setitem_in _ k v Hin) as (d1 & v0 & d2 & E & _ & E').
    exists d1, v0, d2. now split.
  - intros Hnin. now apply setitem_notin.
  - intros Hin. destruct (delitem_in _ k Hin) as (d1 & v0 & d2 & E & _ & E').
    exists d1, v0, d2. rewrite (entries_delitem _ _ _ Hnt E').
    split; [assumption|]. split; [reflexivity|].
    rewrite E, !keys_app in Hnd. cbn in Hnd.
    apply NoDup_app in Hnd as (H1 & H12 & H2).
    apply NoDup_cons in H2 as [Hk2 H2].
    rewrite keys_app. split.
    + apply NoDup_app. repeat split; [assumption| |assumption].
      intros x Hx Hx'. apply (H12 x Hx). now right.
    + intros Hk. apply elem_of_app in Hk as [Hk|Hk]; [|contradiction].
      apply (H12 k Hk). left.
Qed.

(** What the call itself does on a key with white space: the attribute was
    stored as [b_c], so deleting the attribute [b c] raises, after the item
    was deleted. An integer key has no attribute at all. *)
Example delitem_after_setitem_raises :
  let self := (Config.__setitem__ Config.empty (KStr (py "b c")) (VInt 2)).1 in
  self = Config.mk [(KStr (py "b c"), VInt 2)] {[ py "b_c" := VInt 2 ]}
  ∧ Config.__delitem__ self (KStr (py "b c"))
    = (Config.mk [] {[ py "b_c" := VInt 2 ]}, Raised AttributeError)
  ∧ Config.__delitem__ (Config.mk [(KInt 3, VNone)] ∅) (KInt 3)
    = (Config.empty, Raised TypeError).
Proof. repeat split; reflexivity. Qed.

(** ** The file name validator *)

Section ValidatorFacts.

Variable unicode_word : codepoint → bool.

Lemma in_class_not_slash (c : codepoint) :
  in_class unicode_word c = true → is_slash c = false.
Proof.
  intros Hc. unfold is_slash. destruct (N.eqb_spec c slash) as [->|]; [|reflexivity].
  vm_compute in Hc. discriminate.
Qed.

Lemma class_plus_end_no_slash (seen : bool) (s : str) :
  class_plus_end unicode_word seen s = true → existsb is_slash s = false.
Proof.
  revert seen. induction s as [|c s IH]; intros seen H; [reflexivity|].
  cbn in *. destruct (in_class unicode_word c) eqn:Hc.
  - rewrite (in_class_not_slash c Hc). cbn. now apply (IH true).
  - apply andb_true_iff in H as [H Hs]. apply andb_true_iff in H as [_ Hn].
    apply bool_decide_eq_true in Hs. subst s.
    apply N.eqb_eq in Hn. subst c. reflexivity.
Qed.

Lemma dirname_no_slash (p : str) :
  existsb is_slash p = false → os_path_dirname p = [].
Proof.
  intros H. unfold os_path_dirname.
  destruct p as [|c p]; [reflexivity|]. cbn [head_to_last_slash]. now rewrite H.
Qed.

(** A name that passes the pattern has no slash, so its directory part is
    the empty string, which [os.path.exists] never finds: no name is
    valid. *)
Lemma is_valid_filename_false (fs : filesystem) (fn : str) :
  is_valid_filename unicode_word fs fn = false.
Proof.
  unfold is_valid_filename, re_match_filename.
  destruct (class_plus_end unicode_word false fn) eqn:H; [|reflexivity].
  cbn. now rewrite (dirname_no_slash fn (class_plus_end_no_slash _ _ H)).
Qed.

End ValidatorFacts.

(** C4. The validator on the file name the application starts with,
    [config.yaml], on any host: the name passes the pattern, its directory
    part is the empty string, and the result is a failure. *)
Theorem validate_default_filename (unicode_word : codepoint → bool) (fs : filesystem) :
  re_match_filename unicode_word (py "config.yaml") = true
  ∧ os_path_dirname (py "config.yaml") = []
  ∧ os_path_exists fs [] = false
  ∧ validate unicode_word fs (py "config.yaml")
    = failure (py "Invalid filename or path.").
Proof.
  do 3 (split; [reflexivity|]).
  unfold validate. now rewrite is_valid_filename_false.
Qed.

(** The pattern itself: it takes a name that ends with a newline, and, with
    a table that has it, a letter beyond ASCII; it refuses the empty string
    and a name with a slash. *)
Example re_match_filename_cases :
  re_match_filename (λ c, (c =? 0xE9)%N) (py "abc" ++ [newline]) = true
  ∧ re_match_filename (λ c, (c =? 0xE9)%N) [0xE9%N] = true
  ∧ re_match_filename (λ c, (c =? 0xE9)%N) [] = false
  ∧ re_match_filename (λ c, (c =? 0xE9)%N) (py "bad/name") = false
  ∧ os_path_dirname (py "bad/name") = py "bad"
  ∧ os_path_dirname (py "//a") = py "//"
  ∧ os_path_dirname (py "a//b") = py "a".
Proof. repeat split; reflexivity. Qed.

(** ** [save] and [load] *)

Lemma keys_transform (f : str → str) (d : PyDict.t) :
  PyDict.keys (map (transform_entry f) d) = PyDict.keys d.
Proof.
  unfold PyDict.keys. induction d as [|[k v] d IH]; [reflexivity|].
  cbn. now rewrite IH.
Qed.

Lemma update_wf (d other : PyDict.t) :
  NoDup (PyDict.keys d) → NoDup (PyDict.keys (PyDict.update d other)).
Proof.
  revert d. induction other as [|[k v] other IH]; intros d Hd; [exact Hd|].
  unfold PyDict.update in *. cbn. apply IH. now apply setitem_wf.
Qed.

Lemma written_plain (a : gmap str value) (f : str → str) (kv : key * value) :
  ¬ holds_table kv → deref_entry a (transform_entry f kv) = transform_entry f kv.
Proof.
  intros H. apply deref_entry_no_table. intros [Hk [rest Hv]]. apply H.
  destruct kv as [k v]. split; [exact Hk|]. exists rest.
  destruct v; cbn in Hv; try discriminate. exact Hv.
Qed.

Lemma map_written_plain (self : Config.t) (d : list (key * value)) :
  no_table d → map (written self) d = map (transform_entry Config._mangle) d.
Proof.
  intros H. apply map_ext_Forall. eapply Forall_impl; [exact H|].
  intros kv. apply written_plain.
Qed.

Lemma strings_no_table (d : list (key * value)) :
  Forall (λ kv, is_str kv.2 = true) d → no_table d.
Proof.
  intros H. eapply Forall_impl; [exact H|]. intros [k v] Hs [_ [rest Hv]].
  cbn in *. subst v. discriminate.
Qed.

Lemma keys_no_table (d : list (key * value)) :
  Forall (key_avoids [py "__dict__"]) (PyDict.keys d) → no_table d.
Proof.
  unfold PyDict.keys. intros H. apply (proj1 (Forall_fmap _ _ _)) in H.
  eapply Forall_impl; [exact H|]. intros [k v] Hk [Hn _]. cbn in *.
  apply key_avoids_table in Hk. destruct k as [s|n]; [|discriminate].
  cbn in Hn. now apply bool_decide_eq_true in Hn.
Qed.

Lemma written_str (self : Config.t) (k : key) (s : str) :
  written self (k, VStr s) = (k, VStr (Config._mangle s)).
Proof.
  unfold written, deref_entry, transform_entry. cbn [fst snd transform_top_level].
  now destruct (names_table k).
Qed.

Lemma written_other (self : Config.t) (k : key) (v : value) :
  is_str v = false → written self (k, v) = deref_entry (Config.attrs self) (k, v).
Proof. intros H. unfold written, transform_entry. now destruct v. Qed.

Lemma save_loop_done (self : Config.t) (items : list (key * value))
    (file doc : yaml_doc) :
  Config.save_loop self items file = (doc, Done) →
  doc = file ++ map (written self) items.
Proof.
  revert file. induction items as [|[k v] items IH]; intros file H; cbn in H.
  - inversion H. now rewrite app_nil_r.
  - assert (Hd : ∀ kv, Config.save_loop self items (yaml_dump kv file) = (doc, Done) →
                       doc = file ++ kv :: map (written self) items).
    { intros kv Hkv. apply IH in Hkv. rewrite Hkv. unfold yaml_dump.
      now rewrite <- app_assoc. }
    cbn [map]. destruct v;
      try (rewrite written_other by reflexivity; exact (Hd _ H)).
    rewrite written_str.
    destruct (call_method _ _); [|discriminate]. exact (Hd _ H).
Qed.

Lemma save_loop_run (self : Config.t) (items : list (key * value)) (file : yaml_doc) :
  call_method (py "_mangle") (Config.attrs self) = Done →
  Config.save_loop self items file = (file ++ map (written self) items, Done).
Proof.
  intros Hm. revert file.
  induction items as [|[k v] items IH]; intros file; cbn [Config.save_loop map].
  - now rewrite app_nil_r.
  - destruct v;
      try (rewrite written_other by reflexivity; rewrite IH; unfold yaml_dump;
           now rewrite <- app_assoc).
    rewrite written_str, Hm, IH. unfold yaml_dump. now rewrite <- app_assoc.
Qed.

(** What a [save] that ended has written: every entry, a string mangled,
    the table with the items it has. *)
Lemma save_written (self : Config.t) (path : str) (fs fs' : filesystem) :
  Config.save self path fs = (fs', Done) →
  writable fs path = true
  ∧ files fs' !! path = Some (map (written self) (Config.entries self))
  ∧ (path ∉ empty_mappings fs').
Proof.
  unfold Config.save, open_w. intros H.
  destruct (writable fs path); [|discriminate]. split; [reflexivity|].
  destruct (call_method _ _); [|discriminate].
  destruct (Config.save_loop _ _ _) as [doc r] eqn:E.
  inversion H; subst. apply save_loop_done in E. subst doc.
  cbn. split; [apply lookup_insert_eq|].
  apply not_elem_of_difference. right. now apply elem_of_singleton.
Qed.

Lemma save_done (self : Config.t) (path : str) (fs fs' : filesystem) :
  no_table (Config.entries self) →
  Config.save self path fs = (fs', Done) →
  writable fs path = true
  ∧ files fs' !! path
    = Some (map (transform_entry Config._mangle) (Config.entries self)).
Proof.
  intros Hnt H. apply save_written in H as (Hw & H & _). split; [exact Hw|].
  now rewrite <- (map_written_plain self).
Qed.

(** A store without attributes of the names [items] and [_mangle] is
    written whenever the file can be opened. *)
Lemma save_run_written (self : Config.t) (path : str) (fs : filesystem) :
  writable fs path = true →
  call_method (py "items") (Config.attrs self) = Done →
  call_method (py "_mangle") (Config.attrs self) = Done →
  Config.save self path fs
  = (write_file path (map (written self) (Config.entries self))
                (write_file path [] fs), Done).
Proof.
  intros Hw Hi Hm. unfold Config.save, open_w. rewrite Hw, Hi.
  now rewrite (save_loop_run self _ [] Hm).
Qed.

Lemma save_run (self : Config.t) (path : str) (fs : filesystem) :
  no_table (Config.entries self) →
  writable fs path = true →
  call_method (py "items") (Config.attrs self) = Done →
  call_method (py "_mangle") (Config.attrs self) = Done →
  Config.save self path fs
  = (write_file path (map (transform_entry Config._mangle) (Config.entries self))
                (write_file path [] fs), Done).
Proof.
  intros Hnt Hw Hi Hm. rewrite (save_run_written self path fs Hw Hi Hm).
  now rewrite (map_written_plain self).
Qed.

(** The keys of the store after [__setitem__] are those of the built-in
    operation, whatever the attribute step does. *)
Lemma keys_setitem_store (self : Config.t) (k : key) (v : value) :
  PyDict.keys (Config.entries (Config.__setitem__ self k v).1)
  = PyDict.keys (PyDict.setitem k v (Config.entries self)).
Proof.
  unfold Config.__setitem__. destruct k as [s|n]; [|reflexivity].
  cbn [Config.entries Config.attrs]. destruct (py_setattr _ _ _); [|reflexivity].
  cbn [fst Config.entries]. unfold Config.rebind.
  case_decide; [|reflexivity]. destruct v; try reflexivity.
  rewrite (keys_setitem_congr _ (PyDict.setitem (KStr s) (VMap m) (Config.entries self))
             _ _ (VMap m)) by apply keys_freeze.
  apply keys_setitem_twice.
Qed.

Lemma load_loop_keys (items : list (key * value)) (cfg cfg' : Config.t) :
  Config.load_loop cfg items = Ok cfg' →
  PyDict.keys (Config.entries cfg')
  = PyDict.keys (PyDict.update (Config.entries cfg) items).
Proof.
  revert cfg. induction items as [|[k v] items IH]; intros cfg H.
  - now inversion H.
  - assert (Hstep : ∀ w cfg1,
               (Config.__setitem__ cfg k w).1 = cfg1 →
               Config.load_loop cfg1 items = Ok cfg' →
               PyDict.keys (Config.entries cfg')
               = PyDict.keys (PyDict.update (Config.entries cfg) ((k, v) :: items))).
    { intros w cfg1 E H1. apply IH in H1. rewrite H1.
      unfold PyDict.update at 2. cbn [fold_left fst snd].
      apply keys_update_congr. rewrite <- E, keys_setitem_store.
      now apply keys_setitem_congr. }
    cbn in H.
    destruct v;
      try (destruct (call_method _ _); [|discriminate]);
      match type of H with
      | context [Config.__setitem__ cfg k ?w] =>
          destruct (Config.__setitem__ cfg k w) as [cfg1 [|e]] eqn:E;
          [|discriminate];
          apply (Hstep w cfg1); [now rewrite E|exact H]
      end.
Qed.

Lemma load_loop_entries (items : list (key * value)) (cfg cfg' : Config.t) :
  Forall (key_avoids [py "__dict__"]) (PyDict.keys items) →
  Config.load_loop cfg items = Ok cfg' →
  NoDup (PyDict.keys (Config.entries cfg ++ items)) →
  Config.entries cfg'
  = Config.entries cfg ++ map (transform_entry Config._unmangle) items.
Proof.
  revert cfg. induction items as [|[k v] items IH]; intros cfg Hav H Hnd.
  - inversion H. now rewrite app_nil_r.
  - apply Forall_cons in Hav as [Hak Hav]. cbn [fst] in Hak.
    assert (Hk : k ∉ PyDict.keys (Config.entries cfg)).
    { rewrite keys_app in Hnd. apply NoDup_app in Hnd as (_ & Hdisj & _).
      intros Hin. apply (Hdisj k Hin). left. }
    assert (Hstep : ∀ w cfg1,
               (Config.__setitem__ cfg k w).1 = cfg1 →
               Config.load_loop cfg1 items = Ok cfg' →
               Config.entries cfg'
               = Config.entries cfg ++ (k, w) :: map (transform_entry Config._unmangle) items).
    { intros w cfg1 E H1.
      assert (E1 : Config.entries cfg1 = Config.entries cfg ++ [(k, w)]).
      { rewrite <- E, entries_setitem by exact Hak. now apply setitem_notin. }
      apply IH in H1; [|exact Hav|].
      - rewrite H1, E1, <- app_assoc. reflexivity.
      - rewrite E1, <- app_assoc. cbn. rewrite keys_app in *. exact Hnd. }
    cbn in H. unfold transform_entry at 1. cbn [fst snd map].
    destruct v; cbn [transform_top_level];
      try (destruct (call_method _ _); [|discriminate]);
      match type of H with
      | context [Config.__setitem__ cfg k ?w] =>
          destruct (Config.__setitem__ cfg k w) as [cfg1 [|e]] eqn:E;
          [|discriminate];
          apply (Hstep w cfg1); [now rewrite E|exact H]
      end.
Qed.

Lemma update_keys_avoid (names : list str) (file : list (key * value)) :
  Forall (key_avoids names) (PyDict.keys file) →
  ∀ d, Forall (key_avoids names) (PyDict.keys d) →
       Forall (key_avoids names) (PyDict.keys (PyDict.update d file)).
Proof.
  induction file as [|[k v] file IH]; intros Hf d Hd; [exact Hd|].
  apply Forall_cons in Hf as [Hk Hf]. unfold PyDict.update in *. cbn.
  apply (IH Hf). rewrite keys_setitem. case_decide; [exact Hd|].
  apply Forall_app. split; [exact Hd|]. now constructor.
Qed.

(** A [load] that ended read a file, with a block or the text [{}], and
    stored the entries of its mapping. *)
Lemma load_inv (path : str) (fs : filesystem) (cfg : Config.t) :
  Config.load path fs = Ok cfg →
  ∃ file, files fs !! path = Some file
          ∧ (file = [] → path ∈ empty_mappings fs)
          ∧ Config.load_loop Config.empty (PyDict.update [] file) = Ok cfg.
Proof.
  unfold Config.load, open_r. intros H.
  destruct (files fs !! path) as [file|]; [|discriminate].
  exists file. split; [reflexivity|].
  destruct file as [|kv file]; [|split; [discriminate|exact H]].
  case_bool_decide as Hp; [|discriminate]. split; [intros _; exact Hp|exact H].
Qed.

Lemma load_of_file (path : str) (fs : filesystem) (file : list (key * value)) :
  files fs !! path = Some file → file ≠ [] →
  Config.load path fs = Config.load_loop Config.empty (PyDict.update [] file).
Proof.
  intros Hf Hne. unfold Config.load, open_r. rewrite Hf.
  destruct file; [now contradict Hne|reflexivity].
Qed.

(** [load_keys] holds for every file, [load_ok] for one none of whose keys
    is mirrored as [__dict__]. *)
Lemma load_keys (path : str) (fs : filesystem) (cfg : Config.t) :
  Config.load path fs = Ok cfg →
  ∃ file, files fs !! path = Some file
          ∧ PyDict.keys (Config.entries cfg) = PyDict.keys (PyDict.update [] file).
Proof.
  intros H. apply load_inv in H as (file & Hf & _ & H).
  exists file. split; [exact Hf|].
  rewrite (load_loop_keys _ _ _ H).
  cbn [Config.empty Config.entries]. f_equal. apply update_nil, update_wf. constructor.
Qed.

Lemma load_ok (path : str) (fs : filesystem) (cfg : Config.t) :
  Config.load path fs = Ok cfg →
  ∃ file, files fs !! path = Some file
          ∧ (Forall (key_avoids [py "__dict__"]) (PyDict.keys file) →
             Config.entries cfg
             = map (transform_entry Config._unmangle) (PyDict.update [] file)).
Proof.
  intros H. apply load_inv in H as (file & Hf & _ & H).
  exists file. split; [exact Hf|]. intros Hav.
  apply (load_loop_entries _ _ _ (update_keys_avoid _ _ Hav [] (Forall_nil_2 _)) H).
  cbn [Config.empty Config.entries app]. apply update_wf. constructor.
Qed.

Lemma map_transform_entry_spec (f : str → str) (d : list (key * value)) :
  top_level_strings_only f d (map (transform_entry f) d).
Proof.
  split; [apply length_map|].
  intros i k v Hi. exists (transform_top_level f v).
  split; [|split].
  - rewrite list_lookup_fmap, Hi. reflexivity.
  - intros Hv. destruct v; try reflexivity. discriminate.
  - intros s ->. reflexivity.
Qed.

Lemma written_freeze (self : Config.t) (d : list (key * value)) :
  map (written self) d
  = map (transform_entry Config._mangle) (freeze (Config.attrs self) d).
Proof.
  unfold freeze. rewrite map_map. apply map_ext. intros [k v].
  unfold written, deref_entry, transform_entry. cbn [fst snd].
  destruct (names_table k); [|reflexivity]. now destruct v.
Qed.

(** C6. A file whose first entry is the key [__dict__] with the mapping
    [{x: 1}] and whose second entry is [y: 2]: [load] ends, and the store it
    returns holds under [__dict__] a mapping with the two items [x: 1] and
    [y: 2]. The nested mapping did not pass through as it was: it became the
    attribute table of the store, and the attribute of [y] was added to
    it. *)
Theorem load_changes_table_item :
  let file := [(KStr (py "__dict__"), VMap [(KStr (py "x"), VInt 1)]);
               (KStr (py "y"), VInt 2)] in
  let fs := write_file (py "config.yaml") file fresh_fs in
  ∃ cfg m,
    Config.load (py "config.yaml") fs = Ok cfg
    ∧ PyDict.keys (Config.entries cfg) = [KStr (py "__dict__"); KStr (py "y")]
    ∧ Config.item cfg (KStr (py "y")) = Some (VInt 2)
    ∧ Config.item cfg (KStr (py "__dict__")) = Some (VMap m)
    ∧ length m = 2
    ∧ PyDict.get (KStr (py "x")) m = Some (VInt 1)
    ∧ PyDict.get (KStr (py "y")) m = Some (VInt 2).
Proof.
  intros file fs.
  destruct (Config.load (py "config.yaml") fs) as [cfg|e] eqn:Hl;
    [|vm_compute in Hl; discriminate].
  destruct (Config.item cfg (KStr (py "__dict__"))) as [[| | | | |m|]|] eqn:Hm;
    try (exfalso; vm_compute in Hl; inversion Hl; subst cfg;
         vm_compute in Hm; discriminate).
  exists cfg, m. split; [reflexivity|].
  vm_compute in Hl. inversion Hl; subst cfg. clear Hl.
  vm_compute in Hm. inversion Hm; subst m. clear Hm.
  repeat split; vm_compute; reflexivity.
Qed.

(** The rule holds for what [save] writes, of the items as a reader of the
    store sees them, and for what [load] returns from a file none of whose
    keys is mirrored as [__dict__]: the same key at every position, a string
    replaced by its image, any other value as it is. *)
Lemma transform_top_level_as_read :
  (∀ (self : Config.t) (path : str) (fs fs' : filesystem),
      Config.save self path fs = (fs', Done) →
      ∃ doc, files fs' !! path = Some doc
             ∧ top_level_strings_only Config._mangle
                 (freeze (Config.attrs self) (Config.entries self)) doc)
  ∧ (∀ (path : str) (fs : filesystem) (cfg : Config.t),
      Config.load path fs = Ok cfg →
      ∃ file, files fs !! path = Some file
              ∧ (Forall (key_avoids [py "__dict__"]) (PyDict.keys file) →
                 top_level_strings_only Config._unmangle
                   (PyDict.update [] file) (Config.entries cfg))).
Proof.
  split.
  - intros self path fs fs' H. apply save_written in H as (_ & H & _).
    eexists. split; [exact H|]. rewrite written_freeze.
    apply map_transform_entry_spec.
  - intros path fs cfg H. apply load_ok in H as (file & Hf & He).
    exists file. split; [exact Hf|]. intros Hav. rewrite (He Hav).
    apply map_transform_entry_spec.
Qed.

(** C1. The store with no entry: [save] opens the file and writes nothing,
    and [load] of that file raises [AttributeError]; it does not give the
    empty store back, so saving and loading is not the identity there. *)
Theorem save_empty_then_load_raises (self : Config.t) (path : str)
    (fs fs' : filesystem) :
  Config.entries self = [] →
  Config.save self path fs = (fs', Done) →
  files fs' !! path = Some [] ∧ Config.load path fs' = Raise AttributeError.
Proof.
  intros He Hs. apply save_written in Hs as (_ & Hs & Hp). rewrite He in Hs.
  cbn [map] in Hs.
  split; [exact Hs|]. unfold Config.load, open_r. rewrite Hs.
  now rewrite bool_decide_eq_false_2.
Qed.

Lemma save_empty_then_load_raises_witness :
  let path := py "config.yaml" in
  let fs' := (Config.save Config.empty path fresh_fs).1 in
  Config.save Config.empty path fresh_fs = (fs', Done)
  ∧ files fs' !! path = Some []
  ∧ Config.load path fs' = Raise AttributeError.
Proof.
  intros path fs'.
  assert (Hs : Config.save Config.empty path fresh_fs = (fs', Done)) by reflexivity.
  split; [exact Hs|].
  exact (save_empty_then_load_raises Config.empty path fresh_fs fs' eq_refl Hs).
Defined.

(** ** The handlers of the application *)

Lemma setitem_elem (d : PyDict.t) (k : key) (v : value) (x : key * value) :
  x ∈ PyDict.setitem k v d → x ∈ d ∨ x = (k, v).
Proof.
  induction d as [|[k' v'] d IH]; cbn; intros Hx.
  - apply list_elem_of_singleton in Hx. now right.
  - destruct (decide (k' = k)) as [->|Hne].
    + apply elem_of_cons in Hx as [->|Hx]; [now right|]. left. now right.
    + apply elem_of_cons in Hx as [->|Hx]; [left; left|].
      destruct (IH Hx) as [H|H]; [left; now right|now right].
Qed.

Lemma update_elem (other d : PyDict.t) (x : key * value) :
  x ∈ PyDict.update d other → x ∈ d ∨ x ∈ other.
Proof.
  revert d. induction other as [|[k v] other IH]; intros d Hx.
  - now left.
  - unfold PyDict.update in *. cbn in Hx. apply IH in Hx as [Hx|Hx].
    + apply setitem_elem in Hx as [Hx| ->]; [now left|right; left].
    + right. now right.
Qed.

Lemma rows_dict_update (rs : list (str * str)) (acc : PyDict.t) :
  rows_dict rs acc = PyDict.update acc (map row_item (kept_rows rs)).
Proof.
  revert acc. induction rs as [|[k v] rs IH]; intros acc; [reflexivity|].
  cbn [rows_dict]. unfold kept_rows in *. rewrite filter_cons. cbn [fst].
  case_bool_decide as Hk; cbn [negb].
  - rewrite decide_False by (intros H; now apply H). apply IH.
  - rewrite decide_True by assumption. rewrite IH. reflexivity.
Qed.

Lemma rows_dict_wf (rs : list (str * str)) :
  NoDup (PyDict.keys (rows_dict rs [])).
Proof. rewrite rows_dict_update. apply update_wf. constructor. Qed.

Lemma rows_dict_no_table (rs : list (str * str)) :
  no_table (rows_dict rs []).
Proof.
  apply strings_no_table, Forall_forall. intros x Hx.
  rewrite rows_dict_update in Hx. apply update_elem in Hx as [Hx|Hx]; [inversion Hx|].
  apply list_elem_of_fmap in Hx as (r & -> & _). reflexivity.
Qed.

(** The handler in one equation: the store is rebuilt from the rows, with
    no attribute; the file is written when it can be opened, and the
    notification follows only then. *)
Lemma on_save_button_pressed_eq (self : Configurator) (notify_ : bool)
    (fs : filesystem) :
  let fn := config_filename self in
  let cfg := Config.mk (rows_dict (rows self) []) ∅ in
  let self1 := mk_app cfg (PyDict.keys (Config.entries cfg)) (rows self) fn
                      (notifications self) (exited self) in
  on_save_button_pressed self notify_ fs
  = if writable fs fn then
      (if notify_ then notify self1 (saved_notification fn) else self1,
       write_file fn (map (transform_entry Config._mangle) (Config.entries cfg))
                  (write_file fn [] fs),
       Done)
    else (self1, fs, Raised OSError).
Proof.
  intros fn cfg self1. unfold on_save_button_pressed.
  assert (E : config_update Config.empty (rows_dict (rows self) []) = cfg).
  { unfold config_update, cfg. cbn [Config.entries Config.attrs Config.empty].
    now rewrite (update_nil _ (rows_dict_wf _)). }
  rewrite E. fold fn. fold self1.
  destruct (writable fs fn) eqn:Hw.
  - rewrite (save_run cfg fn fs (rows_dict_no_table _) Hw eq_refl eq_refl).
    now destruct notify_.
  - unfold Config.save, open_w. now rewrite Hw.
Qed.

Lemma on_save_config (self : Configurator) (notify_ : bool) (fs : filesystem) :
  config (on_save_button_pressed self notify_ fs).1.1
  = Config.mk (PyDict.update [] (map row_item (kept_rows (rows self)))) ∅.
Proof.
  rewrite on_save_button_pressed_eq, <- rows_dict_update.
  destruct (writable fs _); [destruct notify_|]; reflexivity.
Qed.

Lemma on_save_done (self : Configurator) (notify_ : bool) (fs : filesystem) :
  (on_save_button_pressed self notify_ fs).2 = Done →
  files (on_save_button_pressed self notify_ fs).1.2 !! config_filename self
  = Some (map (transform_entry Config._mangle)
            (Config.entries (config (on_save_button_pressed self notify_ fs).1.1))).
Proof.
  rewrite on_save_button_pressed_eq.
  destruct (writable fs _); [|discriminate]. intros _.
  cbn [fst snd files write_file]. rewrite lookup_insert_eq.
  now destruct notify_.
Qed.

Lemma on_save_keys (self : Configurator) (notify_ : bool) (fs : filesystem) :
  keys (on_save_button_pressed self notify_ fs).1.1
  = PyDict.keys (Config.entries (config (on_save_button_pressed self notify_ fs).1.1)).
Proof.
  rewrite on_save_button_pressed_eq.
  destruct (writable fs _); [destruct notify_|]; reflexivity.
Qed.

Lemma keys_row_items (rs : list (str * str)) :
  PyDict.keys (map row_item rs) = KStr <$> rs.*1.
Proof.
  unfold PyDict.keys. induction rs as [|[k v] rs IH]; [reflexivity|].
  cbn. f_equal. exact IH.
Qed.

#[local] Instance KStr_inj : Inj (=) (=) KStr.
Proof. intros x y H. now inversion H. Qed.

(** C3. [on_save_button_pressed] rebuilds the store by storing, in the
    order of the rows, the rows whose key is not ['new_key'] and no other;
    the displayed keys become the keys of that store; when the kept keys are
    all different the store is these rows one for one; and a save that ends
    has written that store. With the rows [("a", "hello")] and
    [("new_key", "")] the store is [{"a": "hello"}] alone, the file holds
    the one block of [a], and loading it gives that store back. *)
Theorem on_save_store_from_rows (self : Configurator) (notify_ : bool)
    (fs : filesystem) :
  let res := on_save_button_pressed self notify_ fs in
  let store := Config.entries (config res.1.1) in
  let fn := config_filename self in
  store = PyDict.update [] (map row_item (kept_rows (rows self)))
  ∧ keys res.1.1 = PyDict.keys store
  ∧ (NoDup (kept_rows (rows self)).*1 →
     store = map row_item (kept_rows (rows self)))
  ∧ (res.2 = Done →
     files res.1.2 !! fn = Some (map (transform_entry Config._mangle) store))
  ∧ (rows self = [(py "a", py "hello"); (py "new_key", [])] →
     store = [(KStr (py "a"), VStr (py "hello"))]
     ∧ (res.2 = Done →
        files res.1.2 !! fn = Some [(KStr (py "a"), VStr (py "olleh"))]
        ∧ ∃ cfg, Config.load fn res.1.2 = Ok cfg
                 ∧ Config.entries cfg = [(KStr (py "a"), VStr (py "hello"))])).
Proof.
  intros res store fn. subst res store fn.
  assert (Hdone := on_save_done self notify_ fs).
  rewrite on_save_keys. rewrite on_save_config in *.
  cbn [Config.entries] in *.
  split; [reflexivity|]. split; [reflexivity|].
  split.
  { intros Hnd. apply update_nil. rewrite keys_row_items.
    apply (NoDup_fmap_2 _). exact Hnd. }
  split; [exact Hdone|].
  intros Hrows. rewrite Hrows in *.
  split; [reflexivity|].
  intros Hr. specialize (Hdone Hr).
  split; [exact Hdone|].
  unfold Config.load, open_r. rewrite Hdone.
  eexists. split; reflexivity.
Qed.

Lemma on_save_store_from_rows_witness :
  let self := mk_app (Config.mk [(KStr (py "a"), VStr (py "old"))]
                                {[ py "a" := VStr (py "old") ]})
                     [KStr (py "a"); KStr (py "new_key")]
                     [(py "a", py "hello"); (py "new_key", [])]
                     (py "config.yaml") [] false in
  let res := on_save_button_pressed self true fresh_fs in
  rows self = [(py "a", py "hello"); (py "new_key", [])]
  ∧ NoDup (kept_rows (rows self)).*1
  ∧ res.2 = Done
  ∧ config res.1.1 = Config.mk [(KStr (py "a"), VStr (py "hello"))] ∅
  ∧ keys res.1.1 = [KStr (py "a")]
  ∧ files res.1.2 !! py "config.yaml" = Some [(KStr (py "a"), VStr (py "olleh"))]
  ∧ ∃ cfg, Config.load (py "config.yaml") res.1.2 = Ok cfg
           ∧ Config.entries cfg = [(KStr (py "a"), VStr (py "hello"))].
Proof.
  intros self res.
  assert (Hrows : rows self = [(py "a", py "hello"); (py "new_key", [])])
    by reflexivity.
  assert (Hnd : NoDup (kept_rows (rows self)).*1).
  { apply (bool_decide_unpack _). vm_compute. reflexivity. }
  assert (Hr : res.2 = Done) by reflexivity.
  destruct (on_save_store_from_rows self true fresh_fs)
    as (_ & _ & H3 & _ & H5).
  destruct (H5 Hrows) as [_ H6]. destruct (H6 Hr) as [Hfile Hload].
  split; [exact Hrows|]. split; [exact Hnd|]. split; [exact Hr|].
  split; [reflexivity|]. split; [reflexivity|].
  split; [exact Hfile|exact Hload].
Defined.

(** C8. With [notify] true, the handler ends as the call of [save] on the
    rebuilt store ends and leaves the file system that call leaves; the
    notification is added exactly when the save ended without an error; when
    the save raised, the handler raises the same error and the
    notifications are what they were. *)
Theorem on_save_notifies_iff_saved (self : Configurator) (fs : filesystem) :
  let res := on_save_button_pressed self true fs in
  let fn := config_filename self in
  let saved := Config.save (config res.1.1) fn fs in
  res.1.2 = saved.1
  ∧ res.2 = saved.2
  ∧ (saved.2 = Done
     ↔ notifications res.1.1 = notifications self ++ [saved_notification fn])
  ∧ (∀ e, saved.2 = Raised e →
          res.2 = Raised e ∧ notifications res.1.1 = notifications self).
Proof.
  intros res fn saved. subst res saved.
  rewrite on_save_button_pressed_eq. fold fn.
  set (cfg := Config.mk (rows_dict (rows self) []) ∅).
  destruct (writable fs fn) eqn:Hw; cbn [fst snd config notify notifications].
  - rewrite (save_run cfg fn fs (rows_dict_no_table _) Hw eq_refl eq_refl).
    cbn [fst snd].
    split; [reflexivity|]. split; [reflexivity|]. split; [now split|].
    intros e H. discriminate.
  - unfold Config.save, open_w. rewrite Hw. cbn [fst snd].
    split; [reflexivity|]. split; [reflexivity|]. split.
    + split; [discriminate|].
      intros H. apply (f_equal length) in H. rewrite length_app in H.
      cbn in H. lia.
    + intros e H. now split.
Qed.

Lemma on_save_notifies_iff_saved_witness :
  let self := mk_app Config.empty [] [(py "a", py "1")] (py "config.yaml") [] false in
  let read_only := mk_fs (λ _, false) (λ _, false) ∅ in
  let ok := on_save_button_pressed self true fresh_fs in
  let ko := on_save_button_pressed self true read_only in
  ((Config.save (config ok.1.1) (py "config.yaml") fresh_fs).2 = Done
   ∧ ok.2 = Done
   ∧ notifications ok.1.1 = [saved_notification (py "config.yaml")])
  ∧ ((Config.save (config ko.1.1) (py "config.yaml") read_only).2 = Raised OSError
     ∧ ko.2 = Raised OSError
     ∧ notifications ko.1.1 = []
     ∧ files ko.1.2 = ∅).
Proof.
  intros self read_only ok ko. split.
  - assert (Hs : (Config.save (config ok.1.1) (py "config.yaml") fresh_fs).2 = Done)
      by reflexivity.
    destruct (on_save_notifies_iff_saved self fresh_fs) as (_ & Hr & [Hn _] & _).
    split; [exact Hs|]. split; [exact (eq_trans Hr Hs)|exact (Hn Hs)].
  - assert (Hs : (Config.save (config ko.1.1) (py "config.yaml") read_only).2
                 = Raised OSError) by reflexivity.
    destruct (on_save_notifies_iff_saved self read_only) as (_ & _ & _ & He).
    destruct (He OSError Hs) as [Hr Hn].
    split; [exact Hs|]. split; [exact Hr|]. split; [exact Hn|reflexivity].
Defined.

(** C5. [on_quit_button_pressed] leaves the file system, the store and the
    outcome of [on_save_button_pressed] called with [notify=False] on the
    same rows, and the notifications as they were. When that save ended the
    application is the saved one, exited. An application that was running
    and is exited after the handler has its rows in the file. *)
Theorem on_quit_saves_before_exit (self : Configurator) (fs : filesystem) :
  let saved := on_save_button_pressed self false fs in
  let res := on_quit_button_pressed self fs in
  let fn := config_filename self in
  res.1.2 = saved.1.2
  ∧ res.2 = saved.2
  ∧ config res.1.1 = config saved.1.1
  ∧ notifications res.1.1 = notifications self
  ∧ (saved.2 = Done → res.1.1 = exit saved.1.1)
  ∧ (exited self = false → exited res.1.1 = true →
     saved.2 = Done
     ∧ files res.1.2 !! fn
       = Some (map (transform_entry Config._mangle)
                 (PyDict.update [] (map row_item (kept_rows (rows self)))))).
Proof.
  intros saved res fn. subst saved res.
  assert (Hdone := on_save_done self false fs).
  rewrite on_save_config in Hdone. cbn [Config.entries] in Hdone.
  unfold on_quit_button_pressed.
  rewrite on_save_button_pressed_eq in *. fold fn in Hdone |- *.
  destruct (writable fs fn) eqn:Hw; cbn [fst snd config exit notifications exited] in *.
  - do 4 (split; [reflexivity|]). split; [reflexivity|].
    intros _ _. split; [reflexivity|]. now apply Hdone.
  - do 4 (split; [reflexivity|]). split; [discriminate|].
    intros H1 H2. congruence.
Qed.

Lemma on_quit_saves_before_exit_witness :
  let self := mk_app (Config.mk [(KStr (py "a"), VStr (py "0"))]
                                {[ py "a" := VStr (py "0") ]})
                     [KStr (py "a")] [(py "a", py "1")] (py "config.yaml") [] false in
  let fs := write_file (py "config.yaml") [(KStr (py "a"), VStr (py "0"))] fresh_fs in
  let res := on_quit_button_pressed self fs in
  exited self = false
  ∧ exited res.1.1 = true
  ∧ (on_save_button_pressed self false fs).2 = Done
  ∧ res.1.1 = exit (on_save_button_pressed self false fs).1.1
  ∧ notifications res.1.1 = []
  ∧ files res.1.2 !! py "config.yaml" = Some [(KStr (py "a"), VStr (py "1"))].
Proof.
  intros self fs res.
  assert (H0 : exited self = false) by reflexivity.
  assert (H1 : exited res.1.1 = true) by reflexivity.
  destruct (on_quit_saves_before_exit self fs) as (_ & _ & _ & Hn & He & Hf).
  destruct (Hf H0 H1) as [Hd Hfile].
  split; [exact H0|]. split; [exact H1|]. split; [exact Hd|].
  split; [exact (He Hd)|]. split; [exact Hn|exact Hfile].
Defined.

Lemma on_save_entries_from_rows (self : Configurator) (notify_ : bool)
    (fs : filesystem) (k : key) (v : value) :
  (k, v) ∈ Config.entries (config (on_save_button_pressed self notify_ fs).1.1) →
  ∃ ks vs, k = KStr ks ∧ v = VStr vs ∧ (ks, vs) ∈ rows self ∧ ks ≠ new_key.
Proof.
  rewrite on_save_config. cbn [Config.entries]. intros H.
  apply update_elem in H as [H|H]; [inversion H|].
  apply list_elem_of_fmap in H as ([ks vs] & E & H).
  apply list_elem_of_filter in H as [Hne H].
  inversion E; subst. exists ks, vs. now repeat split.
Qed.

Lemma all_strings_all_mangled (store : list (key * value)) :
  Forall (λ kv, is_str kv.2 = true) store →
  all_mangled store (map (transform_entry Config._mangle) store).
Proof.
  intros Hall. split; [apply length_map|].
  intros i k v Hi.
  assert (Hv : is_str v = true).
  { rewrite Forall_forall in Hall.
    apply (Hall (k, v)). eapply list_elem_of_lookup_2, Hi. }
  destruct v; try discriminate. eexists. split; [reflexivity|].
  rewrite list_lookup_fmap, Hi. reflexivity.
Qed.

Lemma on_quit_config (self : Configurator) (fs : filesystem) :
  ∃ n, config (on_quit_button_pressed self fs).1.1
       = config (on_save_button_pressed self n fs).1.1.
Proof.
  exists false. unfold on_quit_button_pressed.
  destruct (on_save_button_pressed self false fs) as [[self' fs'] [|e]]; reflexivity.
Qed.

(** C10. After [on_save_button_pressed], whatever the store held before,
    every entry of the store is a row: a string key that is not the
    sentinel, with a string value. So every [save] of that store that ends,
    the one of the handler included, writes every entry with its value
    mangled; and the store after [on_quit_button_pressed] is of strings
    too. *)
Theorem saved_store_holds_strings (self : Configurator) (notify_ : bool)
    (fs : filesystem) :
  let res := on_save_button_pressed self notify_ fs in
  let store := Config.entries (config res.1.1) in
  (∀ k v, (k, v) ∈ store →
          ∃ ks vs, k = KStr ks ∧ v = VStr vs ∧ (ks, vs) ∈ rows self)
  ∧ Forall (λ kv, is_str kv.2 = true) store
  ∧ (∀ path fs1 fs2,
       Config.save (config res.1.1) path fs1 = (fs2, Done) →
       ∃ doc, files fs2 !! path = Some doc ∧ all_mangled store doc)
  ∧ (res.2 = Done →
     ∃ doc, files res.1.2 !! config_filename self = Some doc
            ∧ all_mangled store doc)
  ∧ Forall (λ kv, is_str kv.2 = true)
      (Config.entries (config (on_quit_button_pressed self fs).1.1)).
Proof.
  intros res store. subst res store.
  assert (Hrows := on_save_entries_from_rows self).
  assert (Hall : ∀ n, Forall (λ kv, is_str kv.2 = true)
      (Config.entries (config (on_save_button_pressed self n fs).1.1))).
  { intros n. apply Forall_forall. intros [k v] Hkv.
    destruct (Hrows n fs k v Hkv) as (ks & vs & _ & -> & _). reflexivity. }
  split.
  { intros k v Hkv. destruct (Hrows notify_ fs k v Hkv) as (ks & vs & ? & ? & ? & _).
    now exists ks, vs. }
  split; [apply Hall|]. split; [|split].
  - intros path fs1 fs2 Hs.
    apply (save_done _ _ _ _ (strings_no_table _ (Hall notify_))) in Hs as [_ Hs].
    eexists. split; [exact Hs|]. apply all_strings_all_mangled, Hall.
  - intros Hr. eexists. split; [exact (on_save_done self notify_ fs Hr)|].
    apply all_strings_all_mangled, Hall.
  - destruct (on_quit_config self fs) as [n ->]. apply Hall.
Qed.

Lemma saved_store_holds_strings_witness :
  let self := mk_app (Config.mk [(KStr (py "port"), VInt 8080);
                                 (KStr (py "debug"), VBool true);
                                 (KStr (py "proxy"), VNone)] ∅)
                     [KStr (py "port"); KStr (py "debug"); KStr (py "proxy")]
                     [(py "port", py "8080"); (py "debug", py "True");
                      (py "proxy", py "None")]
                     (py "config.yaml") [] false in
  let res := on_save_button_pressed self false fresh_fs in
  res.2 = Done
  ∧ files res.1.2 !! py "config.yaml"
    = Some [(KStr (py "port"), VStr (py "0808"));
            (KStr (py "debug"), VStr (py "eurT"));
            (KStr (py "proxy"), VStr (py "enoN"))]
  ∧ ∃ doc, files res.1.2 !! py "config.yaml" = Some doc
           ∧ all_mangled (Config.entries (config res.1.1)) doc.
Proof.
  intros self res.
  assert (Hr : res.2 = Done) by reflexivity.
  destruct (saved_store_holds_strings self false fresh_fs) as (_ & _ & _ & H & _).
  split; [exact Hr|]. split; [reflexivity|exact (H Hr)].
Defined.

(** ** Saving and loading again *)

Lemma setitem_plain (cfg : Config.t) (k : key) (v : value) :
  plain_key k →
  Config.attrs cfg !! py "_unmangle" = None →
  ∃ cfg', Config.__setitem__ cfg k v = (cfg', Done)
          ∧ Config.attrs cfg' !! py "_unmangle" = None.
Proof.
  intros Hk Hu. unfold Config.__setitem__.
  destruct k as [s|n]; [|eexists; split; [reflexivity|exact Hu]].
  cbn [plain_key] in Hk. cbn [Config.attrs Config.entries].
  unfold py_setattr.
  rewrite !not_elem_of_cons in Hk. destruct Hk as (H1 & H2 & H3 & H4 & _).
  rewrite !decide_False by assumption. cbv beta iota zeta.
  eexists. split; [reflexivity|]. cbn [Config.attrs].
  rewrite lookup_insert_ne by assumption. exact Hu.
Qed.

Lemma load_loop_plain (items : list (key * value)) (cfg : Config.t) :
  Forall (λ kv, plain_key kv.1) items →
  Config.attrs cfg !! py "_unmangle" = None →
  ∃ cfg', Config.load_loop cfg items = Ok cfg'.
Proof.
  revert cfg. induction items as [|[k v] items IH]; intros cfg Hp Hu.
  - eexists. reflexivity.
  - apply Forall_cons in Hp as [Hk Hp]. cbn [fst] in Hk.
    cbn [Config.load_loop]. unfold call_method. rewrite Hu.
    destruct v;
      match goal with
      | |- context [Config.__setitem__ cfg k ?w] =>
          destruct (setitem_plain cfg k w Hk Hu) as (cfg1 & -> & Hu1);
          exact (IH cfg1 Hp Hu1)
      end.
Qed.

Lemma plain_keys_avoid (d : list (key * value)) :
  Forall (λ kv, plain_key kv.1) d →
  Forall (key_avoids [py "__dict__"]) (PyDict.keys d).
Proof.
  intros H. unfold PyDict.keys. apply Forall_fmap.
  eapply Forall_impl; [exact H|]. intros [[s|n] v] Hk; cbn in *; [|trivial].
  intros Hin. apply Hk. apply list_elem_of_singleton in Hin. rewrite Hin.
  do 2 right. left.
Qed.

(** A store with at least one entry, unique keys and no key that meets a
    name of the runtime or of [_unmangle]: what [save] wrote, [load] reads
    back as the same entries in the same order. *)
Lemma save_load_round_trip (self : Config.t) (path : str) (fs fs' : filesystem) :
  Config.entries self ≠ [] →
  NoDup (PyDict.keys (Config.entries self)) →
  Forall (λ kv, plain_key kv.1) (Config.entries self) →
  Config.save self path fs = (fs', Done) →
  ∃ cfg, Config.load path fs' = Ok cfg
         ∧ Config.entries cfg = Config.entries self.
Proof.
  intros Hne Hnd Hp Hs.
  apply (save_done _ _ _ _ (keys_no_table _ (plain_keys_avoid _ Hp))) in Hs as [_ Hs].
  set (file := map (transform_entry Config._mangle) (Config.entries self)) in *.
  assert (Hfile : PyDict.update [] file = file).
  { apply update_nil. unfold file. now rewrite keys_transform. }
  assert (Hpf : Forall (λ kv, plain_key kv.1) file).
  { unfold file. apply Forall_fmap. exact Hp. }
  destruct (load_loop_plain file Config.empty Hpf (lookup_empty _)) as [cfg Hl].
  exists cfg. split.
  - unfold Config.load, open_r. rewrite Hs.
    destruct file as [|kv file'] eqn:E.
    + destruct (Config.entries self); [now contradict Hne|discriminate].
    + cbn [yaml_safe_load]. rewrite Hfile. exact Hl.
  - apply load_loop_entries in Hl.
    + rewrite Hl. cbn [Config.empty Config.entries app]. unfold file.
      rewrite map_map. rewrite <- (map_id (Config.entries self)) at 2.
      apply map_ext. intros [k v]. unfold transform_entry. cbn [fst snd].
      destruct v; cbn [transform_top_level]; try reflexivity.
      now rewrite mangle_round_trip.
    + apply plain_keys_avoid. exact Hpf.
    + cbn [Config.empty Config.entries app]. unfold file.
      now rewrite keys_transform.
Qed.

(** Keys that meet the name of a method. A store filled through
    [__setitem__] with the key [items] cannot be saved: the file is emptied
    and the call raises. A file with the key [_unmangle] before another
    string cannot be loaded, although [save] wrote it. *)
Example methods_hidden_by_keys :
  let self := (Config.__setitem__ Config.empty (KStr (py "items")) (VInt 1)).1 in
  let fs := write_file (py "c.yaml") [(KStr (py "old"), VInt 0)] fresh_fs in
  let rows_store := Config.mk [(KStr (py "_unmangle"), VStr (py "a"));
                               (KStr (py "b"), VStr (py "c"))] ∅ in
  (Config.save self (py "c.yaml") fs).2 = Raised TypeError
  ∧ files (Config.save self (py "c.yaml") fs).1 !! py "c.yaml" = Some []
  ∧ (Config.save rows_store (py "c.yaml") fs).2 = Done
  ∧ Config.load (py "c.yaml") (Config.save rows_store (py "c.yaml") fs).1
    = Raise TypeError.
Proof. repeat split; reflexivity. Qed.

(** The application reaches the empty store: with the sentinel row alone
    the handler saves a store without entries, and the file it leaves
    cannot be loaded. *)
Example on_save_sentinel_only_then_load :
  let self := mk_app Config.empty [KStr (py "new_key")] [(py "new_key", [])]
                     (py "config.yaml") [] false in
  let res := on_save_button_pressed self true fresh_fs in
  res.2 = Done
  ∧ Config.entries (config res.1.1) = []
  ∧ files res.1.2 !! py "config.yaml" = Some []
  ∧ Config.load (py "config.yaml") res.1.2 = Raise AttributeError.
Proof. repeat split; reflexivity. Qed.

(** * Further properties *)

(** ** The validator and its pattern *)

(** X1. [validate] returns the failure for every value, on every host and
    with every table of word characters. *)
Theorem validate_always_fails (unicode_word : codepoint → bool)
    (fs : filesystem) (value : str) :
  validate unicode_word fs value = failure (py "Invalid filename or path.").
Proof. unfold validate. now rewrite is_valid_filename_false. Qed.

Lemma newline_not_in_class (unicode_word : codepoint → bool) :
  in_class unicode_word newline = false.
Proof. reflexivity. Qed.

Lemma class_plus_end_split (unicode_word : codepoint → bool) (s : str) (seen : bool) :
  class_plus_end unicode_word seen s = true
  ↔ ∃ body tail, s = body ++ tail
                 ∧ Forall (λ c, in_class unicode_word c = true) body
                 ∧ (seen = true ∨ body ≠ [])
                 ∧ (tail = [] ∨ tail = [newline]).
Proof.
  split.
  - revert seen. induction s as [|c s IH]; intros seen H; cbn in H.
    + exists [], []. repeat split; [constructor|now left|now left].
    + destruct (in_class unicode_word c) eqn:Hc.
      * destruct (IH true H) as (body & tail & -> & Hb & _ & Ht).
        exists (c :: body), tail. repeat split; [now constructor|now right|exact Ht].
      * apply andb_true_iff in H as [H Hs]. apply andb_true_iff in H as [Hseen Hn].
        apply bool_decide_eq_true in Hs. apply N.eqb_eq in Hn. subst.
        exists [], [newline]. repeat split; [constructor|now left|now right].
  - intros (body & tail & -> & Hb & Hs & Ht). revert seen Hs.
    induction Hb as [|c body Hc Hb IH]; intros seen Hs; cbn [app].
    + destruct Hs as [->|Hs]; [|now contradict Hs].
      destruct Ht as [->| ->]; reflexivity.
    + cbn [class_plus_end]. rewrite Hc. apply IH. now left.
Qed.

(** X2. The pattern of the validator takes exactly the names made of one or
    more characters of the set, with nothing after them or one newline. *)
Theorem re_match_filename_iff (unicode_word : codepoint → bool) (fn : str) :
  re_match_filename unicode_word fn = true
  ↔ ∃ body tail, fn = body ++ tail
                 ∧ body ≠ []
                 ∧ Forall (λ c, in_class unicode_word c = true) body
                 ∧ (tail = [] ∨ tail = [newline]).
Proof.
  unfold re_match_filename. rewrite class_plus_end_split. split.
  - intros (body & tail & E & Hb & [Hs|Hs] & Ht); [discriminate|].
    exists body, tail. now repeat split.
  - intros (body & tail & E & Hne & Hb & Ht).
    exists body, tail. repeat split; [exact E|exact Hb|now right|exact Ht].
Qed.

(** ** The attribute mirror *)

Lemma sub_spaces_no_space (in_run : bool) (s : str) :
  Forall (λ c, is_space c = false) (sub_spaces in_run s).
Proof.
  revert in_run. induction s as [|c s IH]; intros in_run; cbn; [constructor|].
  destruct (is_space c) eqn:Hc.
  - destruct in_run; [apply IH|]. constructor; [reflexivity|apply IH].
  - constructor; [exact Hc|apply IH].
Qed.

Lemma sub_spaces_id (in_run : bool) (s : str) :
  Forall (λ c, is_space c = false) s → sub_spaces in_run s = s.
Proof.
  intros H. revert in_run. induction H as [|c s Hc H IH]; intros in_run; cbn.
  - reflexivity.
  - rewrite Hc. now rewrite IH.
Qed.

(** X3. The name under which [__setitem__] mirrors a key has no white
    space; a key without white space is mirrored under its own name; and
    replacing again changes nothing. *)
Theorem re_sub_spaces_name (s : str) :
  Forall (λ c, is_space c = false) (re_sub_spaces s)
  ∧ (Forall (λ c, is_space c = false) s → re_sub_spaces s = s)
  ∧ re_sub_spaces (re_sub_spaces s) = re_sub_spaces s.
Proof.
  unfold re_sub_spaces. split; [apply sub_spaces_no_space|].
  split; [apply sub_spaces_id|]. apply sub_spaces_id, sub_spaces_no_space.
Qed.

Lemma re_sub_spaces_name_witness :
  Forall (λ c, is_space c = false) (py "port")
  ∧ re_sub_spaces (py "port") = py "port".
Proof.
  assert (H : Forall (λ c, is_space c = false) (py "port")).
  { repeat constructor. }
  split; [exact H|]. destruct (re_sub_spaces_name (py "port")) as (_ & Hid & _).
  exact (Hid H).
Defined.

Lemma setitem_str_ok (self : Config.t) (s : str) (v : value) :
  re_sub_spaces s ∉ runtime_names →
  Config.__setitem__ self (KStr s) v
  = (Config.mk (PyDict.setitem (KStr s) v (Config.entries self))
               (<[re_sub_spaces s := v]> (Config.attrs self)), Done).
Proof.
  intros Hn. unfold runtime_names in Hn.
  rewrite !not_elem_of_cons in Hn. destruct Hn as (H1 & H2 & H3 & _).
  unfold Config.__setitem__, py_setattr. cbn [Config.attrs Config.entries].
  rewrite !decide_False by assumption. now rewrite rebind_other.
Qed.

Lemma attrs_no_space_insert (a : gmap str value) (s : str) (v : value) :
  attrs_no_space a → attrs_no_space (<[re_sub_spaces s := v]> a).
Proof.
  intros Ha n Hn. apply lookup_insert_is_Some in Hn as [<-|[_ Hn]].
  - apply sub_spaces_no_space.
  - now apply Ha.
Qed.

Lemma attrs_no_space_delete (a : gmap str value) (n : str) :
  attrs_no_space a → attrs_no_space (delete n a).
Proof.
  intros Ha m Hm. apply lookup_delete_is_Some in Hm as [_ Hm]. now apply Ha.
Qed.

Lemma attrs_no_space_empty : attrs_no_space ∅.
Proof. intros n [v Hn]. now rewrite lookup_empty in Hn. Qed.

(** X4. No attribute name has white space: this holds for [Config()], and
    [__setitem__] (with a key that is not mirrored as [__dict__]) and
    [__delitem__] keep it, whether they raise or not. *)
Theorem attribute_names_have_no_space :
  attrs_no_space (Config.attrs Config.empty)
  ∧ (∀ (self : Config.t) (k : key) (v : value),
       attrs_no_space (Config.attrs self) →
       key_avoids [py "__dict__"] k →
       attrs_no_space (Config.attrs (Config.__setitem__ self k v).1))
  ∧ (∀ (self : Config.t) (k : key),
       attrs_no_space (Config.attrs self) →
       attrs_no_space (Config.attrs (Config.__delitem__ self k).1)).
Proof.
  split; [apply attrs_no_space_empty|]. split.
  - intros self k v Ha Hk. unfold Config.__setitem__.
    destruct k as [s|n]; [|exact Ha].
    cbn [key_avoids] in Hk. apply not_elem_of_cons in Hk as [Hd _].
    cbn [Config.attrs Config.entries]. unfold py_setattr.
    do 2 (case_decide; [exact Ha|]). rewrite decide_False by exact Hd.
    cbn [fst Config.attrs]. now apply attrs_no_space_insert.
  - intros self k Ha. unfold Config.__delitem__.
    destruct (PyDict.delitem k (Config.entries self)); [|exact Ha].
    destruct k as [s|n]; [|exact Ha].
    cbn [Config.attrs Config.entries]. unfold py_delattr.
    do 2 (case_decide; [exact Ha|]).
    case_decide; [cbn [fst Config.attrs]; apply attrs_no_space_empty|].
    destruct (Config.attrs self !! s); [|exact Ha].
    cbn [fst Config.attrs]. now apply attrs_no_space_delete.
Qed.

Lemma attribute_names_have_no_space_witness :
  let self := (Config.__setitem__ Config.empty (KStr (py "a b")) (VInt 1)).1 in
  attrs_no_space (Config.attrs Config.empty)
  ∧ key_avoids [py "__dict__"] (KStr (py "a b"))
  ∧ attrs_no_space (Config.attrs self)
  ∧ attrs_no_space (Config.attrs (Config.__delitem__ self (KStr (py "a b"))).1).
Proof.
  intros self.
  destruct attribute_names_have_no_space as (H0 & Hset & Hdel).
  assert (Hk : key_avoids [py "__dict__"] (KStr (py "a b"))).
  { cbn. apply not_elem_of_cons. split; [discriminate|apply not_elem_of_nil]. }
  pose proof (Hset Config.empty (KStr (py "a b")) (VInt 1) H0 Hk) as H1.
  split; [exact H0|]. split; [exact Hk|]. split; [exact H1|].
  exact (Hdel self (KStr (py "a b")) H1).
Defined.

(** X5. Two different keys that are mirrored under one name: after both
    are stored, each key holds its own value in the store, and the
    attribute holds the value stored last. *)
Theorem mirrored_keys_share_attribute (self : Config.t) (s1 s2 : str)
    (v1 v2 : value) :
  s1 ≠ s2 →
  re_sub_spaces s1 = re_sub_spaces s2 →
  re_sub_spaces s1 ∉ runtime_names →
  let c1 := Config.__setitem__ self (KStr s1) v1 in
  let c2 := Config.__setitem__ c1.1 (KStr s2) v2 in
  c1.2 = Done ∧ c2.2 = Done
  ∧ PyDict.get (KStr s1) (Config.entries c2.1) = Some v1
  ∧ PyDict.get (KStr s2) (Config.entries c2.1) = Some v2
  ∧ Config.attrs c2.1 !! re_sub_spaces s1 = Some v2.
Proof.
  intros Hne Hs Hn c1 c2. subst c1 c2.
  rewrite (setitem_str_ok self s1 v1 Hn). cbn [fst snd].
  rewrite setitem_str_ok by (now rewrite <- Hs). cbn [fst snd Config.entries Config.attrs].
  split; [reflexivity|]. split; [reflexivity|]. split; [|split].
  - rewrite get_setitem_ne by congruence. apply get_setitem_eq.
  - apply get_setitem_eq.
  - rewrite <- Hs. apply lookup_insert_eq.
Qed.

Lemma mirrored_keys_share_attribute_witness :
  let c1 := Config.__setitem__ Config.empty (KStr (py "a b")) (VInt 1) in
  let c2 := Config.__setitem__ c1.1 (KStr (py "a_b")) (VInt 2) in
  py "a b" ≠ py "a_b"
  ∧ re_sub_spaces (py "a b") = re_sub_spaces (py "a_b")
  ∧ Config.entries c2.1 = [(KStr (py "a b"), VInt 1); (KStr (py "a_b"), VInt 2)]
  ∧ Config.attrs c2.1 !! py "a_b" = Some (VInt 2).
Proof.
  intros c1 c2.
  assert (H1 : py "a b" ≠ py "a_b") by discriminate.
  assert (H2 : re_sub_spaces (py "a b") = re_sub_spaces (py "a_b")) by reflexivity.
  assert (H3 : re_sub_spaces (py "a b") ∉ runtime_names).
  { apply (bool_decide_unpack _). vm_compute. reflexivity. }
  destruct (mirrored_keys_share_attribute Config.empty _ _ (VInt 1) (VInt 2) H1 H2 H3)
    as (_ & _ & _ & _ & H).
  split; [exact H1|]. split; [exact H2|]. split; [reflexivity|exact H].
Defined.

Lemma space_free_no_space (s : str) :
  Forall (λ c, is_space c = false) s → Exists (λ c, is_space c = true) s → False.
Proof.
  intros Hf He. apply Exists_exists in He as (c & Hc & Hs).
  rewrite Forall_forall in Hf. specialize (Hf c Hc). congruence.
Qed.

Lemma runtime_names_space_free (n : str) :
  n ∈ runtime_names → Forall (λ c, is_space c = false) n.
Proof.
  unfold runtime_names. rewrite !elem_of_cons.
  intros [->|[->|[->|H]]]; [repeat constructor..|inversion H].
Qed.

(** X6. Deleting a present key whose attribute cannot be deleted: for a
    string key with white space (on a store whose attribute names have
    none) the item is deleted, the attributes stay, and the call raises
    [AttributeError]; for an integer key the item is deleted and the call
    raises [TypeError]. *)
Theorem delitem_raises_after_deleting (self : Config.t) :
  (∀ s : str,
     attrs_no_space (Config.attrs self) →
     Exists (λ c, is_space c = true) s →
     KStr s ∈ PyDict.keys (Config.entries self) →
     ∃ d1 v0 d2, Config.entries self = d1 ++ ((KStr s, v0) :: d2)
                 ∧ Config.__delitem__ self (KStr s)
                   = (Config.mk (d1 ++ d2) (Config.attrs self), Raised AttributeError))
  ∧ (∀ n : Z,
       KInt n ∈ PyDict.keys (Config.entries self) →
       ∃ d1 v0 d2, Config.entries self = d1 ++ ((KInt n, v0) :: d2)
                   ∧ Config.__delitem__ self (KInt n)
                     = (Config.mk (d1 ++ d2) (Config.attrs self), Raised TypeError)).
Proof.
  split.
  - intros s Ha Hs Hin.
    destruct (delitem_in _ _ Hin) as (d1 & v0 & d2 & E & _ & Hd).
    exists d1, v0, d2. split; [exact E|].
    unfold Config.__delitem__. rewrite Hd. cbn [Config.attrs Config.entries].
    assert (Hr : s ∉ runtime_names).
    { intros Hr. exact (space_free_no_space s (runtime_names_space_free s Hr) Hs). }
    unfold runtime_names in Hr. rewrite !not_elem_of_cons in Hr.
    destruct Hr as (H1 & H2 & H3 & _).
    unfold py_delattr. rewrite !decide_False by assumption.
    destruct (Config.attrs self !! s) as [w|] eqn:Hw; [|reflexivity].
    exfalso. apply (space_free_no_space s); [|exact Hs].
    apply Ha. now exists w.
  - intros n Hin.
    destruct (delitem_in _ _ Hin) as (d1 & v0 & d2 & E & _ & Hd).
    exists d1, v0, d2. split; [exact E|].
    unfold Config.__delitem__. now rewrite Hd.
Qed.

Lemma delitem_raises_after_deleting_witness :
  let self := (Config.__setitem__
                 (Config.__setitem__ Config.empty (KStr (py "my key")) (VInt 1)).1
                 (KInt 7) VNone).1 in
  attrs_no_space (Config.attrs self)
  ∧ Exists (λ c, is_space c = true) (py "my key")
  ∧ KStr (py "my key") ∈ PyDict.keys (Config.entries self)
  ∧ KInt 7 ∈ PyDict.keys (Config.entries self)
  ∧ (∃ d1 v0 d2, Config.entries self = d1 ++ ((KStr (py "my key"), v0) :: d2)
                 ∧ Config.__delitem__ self (KStr (py "my key"))
                   = (Config.mk (d1 ++ d2) (Config.attrs self), Raised AttributeError))
  ∧ (∃ d1 v0 d2, Config.entries self = d1 ++ ((KInt 7, v0) :: d2)
                 ∧ Config.__delitem__ self (KInt 7)
                   = (Config.mk (d1 ++ d2) (Config.attrs self), Raised TypeError)).
Proof.
  intros self.
  assert (Ha : attrs_no_space (Config.attrs self)).
  { change (Config.attrs self) with (<[re_sub_spaces (py "my key") := VInt 1]> (∅ : gmap str value)).
    apply attrs_no_space_insert, attrs_no_space_empty. }
  assert (Hs : Exists (λ c, is_space c = true) (py "my key")).
  { apply Exists_exists. exists 32%N. split; [|reflexivity].
    apply (bool_decide_unpack _). vm_compute. reflexivity. }
  assert (H1 : KStr (py "my key") ∈ PyDict.keys (Config.entries self)).
  { apply (bool_decide_unpack _). vm_compute. reflexivity. }
  assert (H2 : KInt 7 ∈ PyDict.keys (Config.entries self)).
  { apply (bool_decide_unpack _). vm_compute. reflexivity. }
  destruct (delitem_raises_after_deleting self) as [Hstr Hint].
  split; [exact Ha|]. split; [exact Hs|]. split; [exact H1|]. split; [exact H2|].
  split; [exact (Hstr _ Ha Hs H1)|exact (Hint 7%Z H2)].
Defined.

(** X7. Deleting a key that is not in the store raises [KeyError] and
    leaves the items and the attributes as they were, also when an
    attribute of that name exists. *)
Theorem delitem_missing_key (self : Config.t) (k : key) :
  k ∉ PyDict.keys (Config.entries self) →
  Config.__delitem__ self k = (self, Raised KeyError).
Proof.
  intros Hk. unfold Config.__delitem__. now rewrite (delitem_notin _ _ Hk).
Qed.

Lemma delitem_missing_key_witness :
  let self := Config.mk [(KStr (py "a b"), VInt 1)] {[ py "a_b" := VInt 1 ]} in
  (KStr (py "a_b") ∉ PyDict.keys (Config.entries self))
  ∧ Config.__delitem__ self (KStr (py "a_b")) = (self, Raised KeyError).
Proof.
  intros self.
  assert (H : KStr (py "a_b") ∉ PyDict.keys (Config.entries self)).
  { apply (bool_decide_unpack _). vm_compute. reflexivity. }
  split; [exact H|exact (delitem_missing_key self _ H)].
Defined.

Lemma delitem_app_last (d : PyDict.t) (k : key) (v : value) :
  k ∉ PyDict.keys d → PyDict.delitem k (d ++ [(k, v)]) = Some d.
Proof.
  induction d as [|[k' v'] d IH]; intros Hk; cbn.
  - now rewrite decide_True.
  - cbn in Hk. apply not_elem_of_cons in Hk as [Hne Hk].
    rewrite decide_False by congruence. now rewrite IH.
Qed.

(** X8. Storing a new string key that has no white space and is no name
    of the runtime, and deleting it again, gives the store back as it was,
    items and attributes, with no error (the attribute of that name was not
    set before). *)
Theorem setitem_then_delitem (self : Config.t) (s : str) (v : value) :
  Forall (λ c, is_space c = false) s →
  s ∉ runtime_names →
  KStr s ∉ PyDict.keys (Config.entries self) →
  Config.attrs self !! s = None →
  Config.__delitem__ (Config.__setitem__ self (KStr s) v).1 (KStr s)
  = (self, Done).
Proof.
  intros Hs Hr Hk Ha.
  assert (Hname : re_sub_spaces s = s) by now apply sub_spaces_id.
  rewrite setitem_str_ok by now rewrite Hname. rewrite Hname. cbn [fst].
  unfold Config.__delitem__. cbn [Config.entries Config.attrs].
  rewrite setitem_notin by assumption. rewrite delitem_app_last by assumption.
  unfold runtime_names in Hr. rewrite !not_elem_of_cons in Hr.
  destruct Hr as (H1 & H2 & H3 & _).
  unfold py_delattr. rewrite !decide_False by assumption.
  rewrite lookup_insert_eq, delete_insert_eq, delete_id by assumption.
  cbn [Config.entries Config.attrs]. rewrite unbind_other by assumption.
  now destruct self.
Qed.

Lemma setitem_then_delitem_witness :
  let self := Config.mk [(KStr (py "a"), VInt 1)] {[ py "a" := VInt 1 ]} in
  Config.__setitem__ self (KStr (py "port")) (VInt 80)
  = (Config.mk [(KStr (py "a"), VInt 1); (KStr (py "port"), VInt 80)]
               (<[py "port" := VInt 80]> {[ py "a" := VInt 1 ]}), Done)
  ∧ Config.__delitem__ (Config.__setitem__ self (KStr (py "port")) (VInt 80)).1
                       (KStr (py "port"))
    = (self, Done).
Proof.
  intros self. split; [reflexivity|].
  apply setitem_then_delitem.
  - repeat constructor.
  - apply (bool_decide_unpack _). vm_compute. reflexivity.
  - apply (bool_decide_unpack _). vm_compute. reflexivity.
  - reflexivity.
Defined.

(** ** [Config(d)] *)

Lemma setitem_same (d : PyDict.t) (k : key) (v : value) :
  NoDup (PyDict.keys d) → (k, v) ∈ d → PyDict.setitem k v d = d.
Proof.
  induction d as [|[k' v'] d IH]; intros Hnd Hin; [inversion Hin|].
  cbn in *. apply NoDup_cons in Hnd as [Hk' Hnd].
  destruct (decide (k' = k)) as [->|Hne].
  - apply elem_of_cons in Hin as [Heq|Hin]; [now inversion Heq|].
    exfalso. apply Hk'. change k with (k, v).1.
    apply list_elem_of_fmap_2. exact Hin.
  - apply elem_of_cons in Hin as [Heq|Hin]; [inversion Heq; congruence|].
    now rewrite IH.
Qed.

Lemma init_loop_ok (items : list (key * value)) (self : Config.t) :
  NoDup (PyDict.keys (Config.entries self)) →
  (∀ kv, kv ∈ items → kv ∈ Config.entries self) →
  Forall (λ kv, key_avoids runtime_names kv.1) items →
  ∃ cfg, Config.init_loop self items = (cfg, Done)
         ∧ Config.entries cfg = Config.entries self
         ∧ (∀ n, is_Some (Config.attrs self !! n) → is_Some (Config.attrs cfg !! n))
         ∧ (∀ s v, (KStr s, v) ∈ items →
                   is_Some (Config.attrs cfg !! re_sub_spaces s))
         ∧ (∀ n w, Config.attrs cfg !! n = Some w →
                   Config.attrs self !! n = Some w
                   ∨ ∃ s, (KStr s, w) ∈ items ∧ re_sub_spaces s = n).
Proof.
  revert self. induction items as [|[k v] items IH]; intros self Hnd Hin Hav.
  - exists self. split; [reflexivity|]. split; [reflexivity|].
    split; [auto|]. split; [intros s v H; inversion H|]. intros n w H. now left.
  - apply Forall_cons in Hav as [Hk Hav]. cbn [fst] in Hk.
    assert (Hsame : PyDict.setitem k v (Config.entries self) = Config.entries self).
    { apply setitem_same; [exact Hnd|]. apply Hin. left. }
    assert (Hstep : ∃ a, Config.__setitem__ self k v
                         = (Config.mk (Config.entries self) a, Done)
                         ∧ (∀ n, is_Some (Config.attrs self !! n) → is_Some (a !! n))
                         ∧ (∀ s, k = KStr s → is_Some (a !! re_sub_spaces s))
                         ∧ (∀ n w, a !! n = Some w →
                                   Config.attrs self !! n = Some w
                                   ∨ ∃ s, k = KStr s ∧ w = v ∧ re_sub_spaces s = n)).
    { destruct k as [s|z].
      - cbn [key_avoids] in Hk. rewrite (setitem_str_ok self s v Hk), Hsame.
        eexists. split; [reflexivity|]. split; [|split].
        + intros n Hn. apply lookup_insert_is_Some.
          destruct (decide (re_sub_spaces s = n)); [now left|now right].
        + intros s' E. inversion E; subst. rewrite lookup_insert_eq. now eexists.
        + intros n w Hw. apply lookup_insert_Some in Hw as [[<- <-]|[_ Hw]].
          * right. now exists s.
          * now left.
      - unfold Config.__setitem__. rewrite Hsame. exists (Config.attrs self).
        split; [reflexivity|]. split; [auto|]. split; [discriminate|].
        intros n w Hw. now left. }
    destruct Hstep as (a & E & Hmono & Hhead & Horig).
    destruct (IH (Config.mk (Config.entries self) a)) as (cfg & E' & He & Hm & H1 & H2).
    + exact Hnd.
    + intros kv Hkv. apply Hin. now right.
    + exact Hav.
    + exists cfg. cbn [Config.init_loop]. rewrite E.
      split; [exact E'|]. split; [exact He|]. split; [|split].
      * intros n Hn. apply Hm, Hmono, Hn.
      * intros s w Hsw. apply elem_of_cons in Hsw as [Heq|Hsw].
        -- inversion Heq; subst. apply Hm. cbn [Config.attrs]. now apply Hhead.
        -- exact (H1 s w Hsw).
      * intros n w Hw. destruct (H2 n w Hw) as [Hw'|(s & Hs & Hn)].
        -- cbn [Config.attrs] in Hw'.
           destruct (Horig n w Hw') as [?|(s & -> & -> & Hn)]; [now left|].
           right. exists s. split; [left|exact Hn].
        -- right. exists s. split; [now right|exact Hn].
Qed.

(** X9. [Config(d)], for a mapping [d] with unique keys of which none is
    mirrored under a name of the runtime: the call ends without error, the
    store holds the items of [d] in their order, every string key has its
    attribute, and every attribute holds the value of a string key of [d]
    mirrored under that name. *)
Theorem config_init_mirrors_items (d : PyDict.t) :
  NoDup (PyDict.keys d) →
  Forall (λ kv, key_avoids runtime_names kv.1) d →
  ∃ cfg, Config.__init__ d = (cfg, Done)
         ∧ Config.entries cfg = d
         ∧ (∀ s v, (KStr s, v) ∈ d →
                   is_Some (Config.attrs cfg !! re_sub_spaces s))
         ∧ (∀ n w, Config.attrs cfg !! n = Some w →
                   ∃ s, (KStr s, w) ∈ d ∧ re_sub_spaces s = n).
Proof.
  intros Hnd Hav. unfold Config.__init__.
  destruct (init_loop_ok d (Config.mk d ∅) Hnd (λ kv H, H) Hav)
    as (cfg & E & He & _ & H1 & H2).
  exists cfg. split; [exact E|]. split; [exact He|]. split; [exact H1|].
  intros n w Hw. destruct (H2 n w Hw) as [Hw'|H]; [|exact H].
  cbn [Config.attrs] in Hw'. now rewrite lookup_empty in Hw'.
Qed.

Lemma config_init_mirrors_items_witness :
  let d := [(KStr (py "first name"), VStr (py "Ada")); (KInt 2, VNone);
            (KStr (py "port"), VInt 80)] in
  NoDup (PyDict.keys d)
  ∧ Forall (λ kv, key_avoids runtime_names kv.1) d
  ∧ ∃ cfg, Config.__init__ d = (cfg, Done)
           ∧ Config.entries cfg = d
           ∧ Config.attrs cfg
             = <[py "port" := VInt 80]> {[ py "first_name" := VStr (py "Ada") ]}.
Proof.
  intros d.
  assert (Hnd : NoDup (PyDict.keys d)).
  { apply (bool_decide_unpack _). vm_compute. reflexivity. }
  assert (Hav : Forall (λ kv, key_avoids runtime_names kv.1) d).
  { repeat constructor; cbn; apply (bool_decide_unpack _); vm_compute; reflexivity. }
  split; [exact Hnd|]. split; [exact Hav|].
  destruct (config_init_mirrors_items d Hnd Hav) as (cfg & E & He & _ & _).
  exists cfg. split; [exact E|]. split; [exact He|].
  assert (E' : Config.__init__ d
               = (Config.mk d (<[py "port" := VInt 80]>
                                 {[ py "first_name" := VStr (py "Ada") ]}), Done))
    by reflexivity.
  rewrite E' in E. inversion E. reflexivity.
Defined.

(** ** More on [save] *)

Lemma write_file_twice (path : str) (d1 d2 : list (key * value)) (fs : filesystem) :
  write_file path d1 (write_file path d2 fs) = write_file path d1 fs.
Proof.
  unfold write_file. cbn. rewrite insert_insert_eq. f_equal.
  apply set_eq. intros p. rewrite !elem_of_difference. tauto.
Qed.

Lemma save_cases (self : Config.t) (path : str) (fs : filesystem) :
  (Config.save self path fs = (fs, Raised OSError) ∧ writable fs path = false)
  ∨ ∃ doc r, Config.save self path fs = (write_file path doc fs, r)
             ∧ writable fs path = true.
Proof.
  unfold Config.save, open_w. destruct (writable fs path); [right|now left].
  destruct (call_method _ _).
  - destruct (Config.save_loop _ _ _) as [doc r].
    exists doc, r. now rewrite write_file_twice.
  - now exists [], (Raised e).
Qed.

(** X10. [save] touches one file: whatever the outcome, every other path
    holds what it held, and the directories and the writable paths of the
    host are the same. *)
Theorem save_touches_one_file (self : Config.t) (path other : str)
    (fs : filesystem) :
  other ≠ path →
  let fs' := (Config.save self path fs).1 in
  files fs' !! other = files fs !! other
  ∧ is_dir fs' = is_dir fs
  ∧ writable fs' = writable fs.
Proof.
  intros Hne fs'. subst fs'.
  destruct (save_cases self path fs) as [[-> _]|(doc & r & -> & _)].
  - now repeat split.
  - cbn. rewrite lookup_insert_ne by congruence. now repeat split.
Qed.

Lemma save_touches_one_file_witness :
  let fs := write_file (py "notes.yaml") [(KStr (py "n"), VInt 1)] fresh_fs in
  let self := Config.mk [(KStr (py "a"), VStr (py "x"))] ∅ in
  py "notes.yaml" ≠ py "config.yaml"
  ∧ files (Config.save self (py "config.yaml") fs).1 !! py "notes.yaml"
    = Some [(KStr (py "n"), VInt 1)].
Proof.
  intros fs self.
  assert (Hne : py "notes.yaml" ≠ py "config.yaml") by discriminate.
  split; [exact Hne|].
  destruct (save_touches_one_file self (py "config.yaml") (py "notes.yaml") fs Hne)
    as (H & _ & _).
  rewrite H. reflexivity.
Defined.

(** X11. Saving again changes nothing: a second [save] of the same store to
    the same path, on the file system the first one left, ends as the first
    one and leaves that file system. The content that the file had before
    plays no part. *)
Theorem save_twice (self : Config.t) (path : str) (fs : filesystem) :
  Config.save self path (Config.save self path fs).1
  = Config.save self path fs.
Proof.
  unfold Config.save, open_w.
  destruct (writable fs path) eqn:Hw; cbn [fst]; [|now rewrite Hw].
  destruct (call_method _ _) eqn:Hc; cbn [fst].
  - destruct (Config.save_loop _ _ _) as [doc r] eqn:Hl. cbn [fst writable write_file].
    rewrite Hw. now rewrite !write_file_twice.
  - cbn [writable write_file]. rewrite Hw. now rewrite write_file_twice.
Qed.

(** X12. A store in which a key mirrored as [items] was just stored cannot
    be saved: on a writable path [save] leaves the file empty, whatever it
    held, and raises [TypeError]. *)
Theorem save_after_items_key (self : Config.t) (s : str) (v : value)
    (path : str) (fs : filesystem) :
  re_sub_spaces s = py "items" →
  writable fs path = true →
  Config.save (Config.__setitem__ self (KStr s) v).1 path fs
  = (write_file path [] fs, Raised TypeError).
Proof.
  intros Hs Hw.
  rewrite setitem_str_ok.
  - unfold Config.save, open_w. rewrite Hw. cbn [fst Config.attrs].
    unfold call_method. rewrite Hs, lookup_insert_eq. reflexivity.
  - rewrite Hs. apply (bool_decide_unpack _). vm_compute. reflexivity.
Qed.

Lemma save_after_items_key_witness :
  let fs := write_file (py "config.yaml") [(KStr (py "a"), VStr (py "x"))] fresh_fs in
  re_sub_spaces (py "items") = py "items"
  ∧ writable fs (py "config.yaml") = true
  ∧ (Config.save (Config.__setitem__ Config.empty (KStr (py "items")) (VInt 3)).1
                 (py "config.yaml") fs).2 = Raised TypeError
  ∧ files (Config.save (Config.__setitem__ Config.empty (KStr (py "items")) (VInt 3)).1
                       (py "config.yaml") fs).1 !! py "config.yaml" = Some [].
Proof.
  intros fs.
  assert (H1 : re_sub_spaces (py "items") = py "items") by reflexivity.
  assert (H2 : writable fs (py "config.yaml") = true) by reflexivity.
  split; [exact H1|]. split; [exact H2|].
  rewrite (save_after_items_key Config.empty (py "items") (VInt 3) _ fs H1 H2).
  split; reflexivity.
Defined.

Lemma save_loop_stops (self : Config.t) (pre post : list (key * value))
    (k : key) (s : str) (file : list (key * value)) :
  is_Some (Config.attrs self !! py "_mangle") →
  Forall (λ kv, is_str kv.2 = false) pre →
  Config.save_loop self (pre ++ (k, VStr s) :: post) file
  = (file ++ freeze (Config.attrs self) pre, Raised TypeError).
Proof.
  intros [w Hm] Hpre. revert file.
  induction Hpre as [|[k' v'] pre Hv Hpre IH]; intros file;
    cbn [app Config.save_loop freeze map].
  - unfold call_method. rewrite Hm. now rewrite app_nil_r.
  - cbn [snd] in Hv. destruct v'; try discriminate;
      rewrite IH; unfold yaml_dump, freeze; now rewrite <- app_assoc.
Qed.

(** X13. A store with an attribute [_mangle] (and none called [items]) is
    saved up to its first string value: on a writable path the file holds
    the entries before that one, as they are, and [save] raises
    [TypeError]. An entry that is the attribute table of the store is
    written with the items that the table has. *)
Theorem save_stops_at_first_string (self : Config.t)
    (pre post : list (key * value)) (k : key) (s : str)
    (path : str) (fs : filesystem) :
  Config.entries self = pre ++ (k, VStr s) :: post →
  Forall (λ kv, is_str kv.2 = false) pre →
  is_Some (Config.attrs self !! py "_mangle") →
  Config.attrs self !! py "items" = None →
  writable fs path = true →
  Config.save self path fs
  = (write_file path (freeze (Config.attrs self) pre) fs, Raised TypeError)
  ∧ (no_table pre →
     Config.save self path fs = (write_file path pre fs, Raised TypeError)).
Proof.
  intros He Hpre Hm Hi Hw.
  assert (E : Config.save self path fs
              = (write_file path (freeze (Config.attrs self) pre) fs, Raised TypeError)).
  { unfold Config.save, open_w, call_method at 1.
    rewrite Hw, Hi, He, (save_loop_stops self pre post k s [] Hm Hpre).
    cbn [app]. now rewrite write_file_twice. }
  split; [exact E|]. intros Hnt. now rewrite E, freeze_no_table.
Qed.

Lemma save_stops_at_first_string_witness :
  let c1 := (Config.__setitem__ Config.empty (KStr (py "port")) (VInt 80)).1 in
  let c2 := (Config.__setitem__ c1 (KStr (py "_mangle")) (VStr (py "x"))).1 in
  let c3 := (Config.__setitem__ c2 (KStr (py "name")) (VStr (py "y"))).1 in
  Config.entries c3
  = [(KStr (py "port"), VInt 80)]
    ++ (KStr (py "_mangle"), VStr (py "x")) :: [(KStr (py "name"), VStr (py "y"))]
  ∧ no_table [(KStr (py "port"), VInt 80)]
  ∧ Config.save c3 (py "config.yaml") fresh_fs
    = (write_file (py "config.yaml") [(KStr (py "port"), VInt 80)] fresh_fs,
       Raised TypeError).
Proof.
  intros c1 c2 c3.
  assert (He : Config.entries c3
               = [(KStr (py "port"), VInt 80)]
                 ++ (KStr (py "_mangle"), VStr (py "x"))
                    :: [(KStr (py "name"), VStr (py "y"))]) by reflexivity.
  assert (Hnt : no_table [(KStr (py "port"), VInt 80)]).
  { repeat constructor. intros [_ [rest Hv]]. discriminate. }
  split; [exact He|]. split; [exact Hnt|].
  refine (proj2 (save_stops_at_first_string c3 _ _ _ _ _ _ He _ _ _ _) Hnt).
  - repeat constructor.
  - exists (VStr (py "x")). reflexivity.
  - reflexivity.
  - reflexivity.
Defined.

(** ** More on [load] and [on_load] *)

Lemma load_loop_cons (cfg : Config.t) (k : key) (v : value)
    (rest : list (key * value)) :
  Config.load_loop cfg ((k, v) :: rest)
  = match (if is_str v then call_method (py "_unmangle") (Config.attrs cfg) else Done) with
    | Raised e => Raise e
    | Done =>
        match Config.__setitem__ cfg k (transform_top_level Config._unmangle v) with
        | (cfg', Done) => Config.load_loop cfg' rest
        | (_, Raised e) => Raise e
        end
    end.
Proof. destruct v; reflexivity. Qed.


Lemma get_transform (f : str → str) (k : key) (d : PyDict.t) :
  PyDict.get k (map (transform_entry f) d)
  = transform_top_level f <$> PyDict.get k d.
Proof.
  induction d as [|[k0 v0] d IH]; [reflexivity|].
  cbn. destruct (decide (k0 = k)); [reflexivity|exact IH].
Qed.

Lemma get_in_nodup (d : PyDict.t) (k : key) (v : value) :
  NoDup (PyDict.keys d) → (k, v) ∈ d → PyDict.get k d = Some v.
Proof.
  induction d as [|[k' v'] d IH]; intros Hnd Hin; [inversion Hin|].
  cbn in *. apply NoDup_cons in Hnd as [Hk' Hnd].
  apply elem_of_cons in Hin as [Heq|Hin].
  - inversion Heq; subst. now rewrite decide_True.
  - rewrite decide_False; [now apply IH|]. intros ->. apply Hk'.
    change k with (k, v).1. now apply list_elem_of_fmap_2.
Qed.

Lemma get_notin (d : PyDict.t) (k : key) :
  k ∉ PyDict.keys d → PyDict.get k d = None.
Proof.
  induction d as [|[k' v'] d IH]; intros Hk; [reflexivity|].
  cbn in *. apply not_elem_of_cons in Hk as [Hne Hk].
  rewrite decide_False by congruence. now apply IH.
Qed.







Lemma key_avoids_sub (l l' : list str) (k : key) :
  (∀ x, x ∈ l' → x ∈ l) → key_avoids l k → key_avoids l' k.
Proof.
  destruct k as [s|n]; cbn [key_avoids]; [|trivial]. intros Hsub Hk Hin. auto.
Qed.

Lemma ordinary_key_plain (k : key) : ordinary_key k → plain_key k.
Proof.
  destruct k as [s|n]; [|trivial]. unfold ordinary_key.
  cbn [key_avoids plain_key]. intros Hk Hin. apply Hk.
  repeat (apply elem_of_cons in Hin as [->|Hin];
          [apply (bool_decide_unpack _); vm_compute; reflexivity|]).
  inversion Hin.
Qed.

Lemma ordinary_key_avoids (n : str) (k : key) :
  n ∈ method_names → ordinary_key k → key_avoids (runtime_names ++ [n]) k.
Proof.
  intros Hn. apply key_avoids_sub. intros x Hx.
  apply elem_of_app in Hx as [Hx|Hx]; apply elem_of_app; [now left|right].
  apply list_elem_of_singleton in Hx. now subst.
Qed.

Lemma setitem_avoids (n : str) (cfg : Config.t) (k : key) (v : value) :
  key_avoids (runtime_names ++ [n]) k →
  Config.attrs cfg !! n = None →
  ∃ cfg', Config.__setitem__ cfg k v = (cfg', Done)
          ∧ Config.attrs cfg' !! n = None.
Proof.
  intros Hk Hn. destruct k as [s|z].
  - cbn [key_avoids] in Hk. apply not_elem_of_app in Hk as [Hr Hne].
    apply not_elem_of_cons in Hne as [Hne _].
    rewrite (setitem_str_ok cfg s v Hr). eexists. split; [reflexivity|].
    cbn [Config.attrs]. now rewrite lookup_insert_ne.
  - eexists. split; [reflexivity|exact Hn].
Qed.

Lemma load_loop_attr_none (n : str) (items : list (key * value))
    (cfg cfg' : Config.t) :
  Forall (λ kv, key_avoids (runtime_names ++ [n]) kv.1) items →
  Config.attrs cfg !! n = None →
  Config.load_loop cfg items = Ok cfg' →
  Config.attrs cfg' !! n = None.
Proof.
  intros Hav. revert cfg. induction Hav as [|[k v] items Hk Hav IH]; intros cfg Hn H.
  - inversion H. now subst.
  - rewrite load_loop_cons in H.
    destruct (if is_str v then _ else _); [|discriminate].
    destruct (setitem_avoids n cfg k (transform_top_level Config._unmangle v) Hk Hn)
      as (cfg1 & E & Hn1).
    rewrite E in H. exact (IH cfg1 Hn1 H).
Qed.

Lemma setitem_done_attrs (cfg cfg1 : Config.t) (k : key) (w : value) :
  Config.__setitem__ cfg k w = (cfg1, Done) →
  key_avoids [py "__dict__"] k →
  Config.attrs cfg1
  = match k with
    | KStr s => <[re_sub_spaces s := w]> (Config.attrs cfg)
    | KInt _ => Config.attrs cfg
    end.
Proof.
  unfold Config.__setitem__. destruct k as [s|z]; intros H Hk.
  - cbn [key_avoids] in Hk. apply not_elem_of_cons in Hk as [Hd _].
    cbn [Config.attrs Config.entries] in H. unfold py_setattr in H.
    do 2 (case_decide; [discriminate|]). rewrite decide_False in H by exact Hd.
    now inversion H.
  - now inversion H.
Qed.

Lemma load_loop_attr_some (n : str) (items : list (key * value))
    (cfg cfg' : Config.t) :
  Forall (λ kv, key_avoids [py "__dict__"] kv.1) items →
  Config.load_loop cfg items = Ok cfg' →
  is_Some (Config.attrs cfg !! n)
  ∨ (∃ s v, (KStr s, v) ∈ items ∧ re_sub_spaces s = n) →
  is_Some (Config.attrs cfg' !! n).
Proof.
  intros Hav. revert cfg. induction Hav as [|[k v] items Hk Hav IH]; intros cfg H Hn.
  - inversion H; subst. destruct Hn as [Hn|(s & v & Hin & _)]; [exact Hn|inversion Hin].
  - rewrite load_loop_cons in H.
    destruct (if is_str v then _ else _); [|discriminate].
    destruct (Config.__setitem__ cfg k _) as [cfg1 [|e]] eqn:E; [|discriminate].
    apply (IH cfg1 H). cbn [fst] in Hk.
    rewrite (setitem_done_attrs _ _ _ _ E Hk).
    destruct Hn as [Hn|(s & v' & Hin & Hs)].
    + left. destruct k as [s|z]; [|exact Hn].
      apply lookup_insert_is_Some.
      destruct (decide (re_sub_spaces s = n)); [now left|now right].
    + apply elem_of_cons in Hin as [Heq|Hin].
      * inversion Heq; subst. left. rewrite lookup_insert_eq. now eexists.
      * right. now exists s, v'.
Qed.

Lemma setitem_keys_elem (d : PyDict.t) (k k' : key) (v : value) :
  k' ∈ PyDict.keys (PyDict.setitem k v d) ↔ k' ∈ PyDict.keys d ∨ k' = k.
Proof.
  destruct (decide (k ∈ PyDict.keys d)) as [Hk|Hk].
  - rewrite keys_setitem_in by assumption. split; [now left|].
    intros [H| ->]; assumption.
  - rewrite setitem_notin, keys_app by assumption. cbn.
    rewrite elem_of_app, list_elem_of_singleton. reflexivity.
Qed.

Lemma update_keys_elem (other : list (key * value)) (d : PyDict.t) (k : key) :
  k ∈ PyDict.keys (PyDict.update d other)
  ↔ k ∈ PyDict.keys d ∨ k ∈ other.*1.
Proof.
  revert d. induction other as [|[k0 v0] other IH]; intros d.
  - cbn. split; [now left|]. intros [H|H]; [exact H|inversion H].
  - unfold PyDict.update in *. cbn [fold_left fst snd]. rewrite IH.
    rewrite setitem_keys_elem. cbn. rewrite elem_of_cons. tauto.
Qed.

(** X15. A start on a file with a key mirrored as [keys] (and no key
    mirrored as [__dict__]) fails: [on_load] raises whatever else the file
    holds. *)
Theorem on_load_key_named_keys (fs : filesystem) (file : list (key * value)) :
  files fs !! py "config.yaml" = Some file →
  Forall (λ kv, key_avoids [py "__dict__"] kv.1) file →
  (∃ s v, (KStr s, v) ∈ file ∧ re_sub_spaces s = py "keys") →
  ∃ e, on_load fs = Raise e.
Proof.
  intros Hf Hav (s & v & Hin & Hs). unfold on_load.
  destruct (Config.load (py "config.yaml") fs) as [cfg|e] eqn:Hl; [|now exists e].
  destruct (load_inv _ _ _ Hl) as (file' & Hf' & _ & Hloop).
  rewrite Hf in Hf'. inversion Hf'; subst file'.
  assert (Hk : is_Some (Config.attrs cfg !! py "keys")).
  { apply (load_loop_attr_some (py "keys") _ _ _) with (2 := Hloop).
    - apply Forall_forall. intros kv Hkv.
      apply update_elem in Hkv as [Hkv|Hkv]; [inversion Hkv|].
      rewrite Forall_forall in Hav. now apply Hav.
    - right.
      assert (Hkey : KStr s ∈ PyDict.keys (PyDict.update [] file)).
      { apply update_keys_elem. right. change (KStr s) with (KStr s, v).1.
        now apply list_elem_of_fmap_2. }
      apply list_elem_of_fmap in Hkey as ([k' v'] & Hk' & Hin').
      cbn in Hk'. subst k'. now exists s, v'. }
  destruct Hk as [w Hw]. unfold call_method. rewrite Hw. now exists TypeError.
Qed.

Lemma on_load_key_named_keys_witness :
  let self := mk_app Config.empty [] [(py "keys", py "abc")] (py "config.yaml") [] false in
  let res := on_save_button_pressed self true fresh_fs in
  res.2 = Done
  ∧ files res.1.2 !! py "config.yaml" = Some [(KStr (py "keys"), VStr (py "cba"))]
  ∧ on_load res.1.2 = Raise TypeError
  ∧ ∃ e, on_load res.1.2 = Raise e.
Proof.
  intros self res.
  assert (Hf : files res.1.2 !! py "config.yaml"
               = Some [(KStr (py "keys"), VStr (py "cba"))]) by reflexivity.
  split; [reflexivity|]. split; [exact Hf|]. split; [reflexivity|].
  apply (on_load_key_named_keys _ _ Hf).
  - repeat constructor. cbn. apply (bool_decide_unpack _). vm_compute. reflexivity.
  - exists (py "keys"), (VStr (py "cba")). split; [left|reflexivity].
Defined.

Lemma mangle_unmangle_back (s : str) : Config._mangle (Config._unmangle s) = s.
Proof.
  unfold Config._unmangle, Config._mangle.
  rewrite !slice_neg1_rev. apply rev_involutive.
Qed.

Lemma transform_entry_back (f g : str → str) (d : list (key * value)) :
  (∀ s, f (g s) = s) →
  map (transform_entry f) (map (transform_entry g) d) = d.
Proof.
  intros Hfg. rewrite map_map. rewrite <- (map_id d) at 2.
  apply map_ext. intros [k v]. unfold transform_entry. cbn [fst snd].
  destruct v; cbn [transform_top_level]; try reflexivity. now rewrite Hfg.
Qed.

(** A file with at least one block, unique keys and ordinary keys loads,
    into the same entries unmangled, and none of the methods is hidden in
    the store loaded. *)
Lemma load_file_ok (path : str) (fs : filesystem) (file : list (key * value)) :
  files fs !! path = Some file →
  file ≠ [] →
  NoDup (PyDict.keys file) →
  Forall (λ kv, ordinary_key kv.1) file →
  ∃ cfg, Config.load path fs = Ok cfg
         ∧ Config.entries cfg = map (transform_entry Config._unmangle) file
         ∧ ∀ n, n ∈ method_names → Config.attrs cfg !! n = None.
Proof.
  intros Hf Hne Hnd Hord.
  rewrite (load_of_file path fs file Hf Hne), (update_nil file Hnd).
  assert (Hplain : Forall (λ kv, plain_key kv.1) file).
  { eapply Forall_impl; [exact Hord|]. intros kv. apply ordinary_key_plain. }
  destruct (load_loop_plain file Config.empty Hplain (lookup_empty _)) as [cfg Hl].
  exists cfg. split; [exact Hl|]. split.
  - apply (load_loop_entries _ _ _ (plain_keys_avoid _ Hplain) Hl). exact Hnd.
  - intros n Hn. apply (load_loop_attr_none n file Config.empty cfg); [|apply lookup_empty|exact Hl].
    eapply Forall_impl; [exact Hord|]. intros kv. now apply ordinary_key_avoids.
Qed.

(** X16. Loading a file and saving the store loaded writes the file again,
    block for block in the same order, when the file has at least one
    block, unique keys, and no key mirrored under a name of the runtime or
    of a method. *)
Theorem load_then_save_same_file (path path' : str) (fs fs' : filesystem)
    (file : list (key * value)) :
  files fs !! path = Some file →
  file ≠ [] →
  NoDup (PyDict.keys file) →
  Forall (λ kv, ordinary_key kv.1) file →
  writable fs' path' = true →
  ∃ cfg, Config.load path fs = Ok cfg
         ∧ Config.save cfg path' fs' = (write_file path' file fs', Done).
Proof.
  intros Hf Hne Hnd Hord Hw.
  destruct (load_file_ok path fs file Hf Hne Hnd Hord) as (cfg & Hl & He & Hm).
  exists cfg. split; [exact Hl|].
  assert (Hi : call_method (py "items") (Config.attrs cfg) = Done).
  { unfold call_method. rewrite Hm; [reflexivity|].
    apply (bool_decide_unpack _). vm_compute. reflexivity. }
  assert (Hg : call_method (py "_mangle") (Config.attrs cfg) = Done).
  { unfold call_method. rewrite Hm; [reflexivity|].
    apply (bool_decide_unpack _). vm_compute. reflexivity. }
  assert (Hnt : no_table (Config.entries cfg)).
  { apply keys_no_table. rewrite He, keys_transform. apply plain_keys_avoid.
    eapply Forall_impl; [exact Hord|]. intros kv. apply ordinary_key_plain. }
  rewrite (save_run cfg path' fs' Hnt Hw Hi Hg), He, write_file_twice.
  now rewrite (transform_entry_back _ _ file mangle_unmangle_back).
Qed.

Lemma load_then_save_same_file_witness :
  let file := [(KStr (py "z"), VStr (py "olleh")); (KStr (py "a"), VInt 1);
               (KStr (py "m"), VSeq [VStr (py "x")])] in
  let fs := write_file (py "config.yaml") file fresh_fs in
  files fs !! py "config.yaml" = Some file
  ∧ NoDup (PyDict.keys file)
  ∧ Forall (λ kv, ordinary_key kv.1) file
  ∧ ∃ cfg, Config.load (py "config.yaml") fs = Ok cfg
           ∧ Config.save cfg (py "copy.yaml") fs
             = (write_file (py "copy.yaml") file fs, Done).
Proof.
  intros file fs.
  assert (Hf : files fs !! py "config.yaml" = Some file) by reflexivity.
  assert (Hne : file ≠ []) by discriminate.
  assert (Hnd : NoDup (PyDict.keys file)).
  { apply (bool_decide_unpack _). vm_compute. reflexivity. }
  assert (Hord : Forall (λ kv, ordinary_key kv.1) file).
  { repeat constructor; unfold ordinary_key; cbn [key_avoids fst];
      apply (bool_decide_unpack _); vm_compute; reflexivity. }
  split; [exact Hf|]. split; [exact Hnd|]. split; [exact Hord|].
  exact (load_then_save_same_file _ (py "copy.yaml") fs fs file Hf Hne Hnd Hord eq_refl).
Defined.

Lemma store_elem_kept (rs : list (str * str)) (kv : key * value) :
  kv ∈ rows_dict rs [] → ∃ r, r ∈ kept_rows rs ∧ kv = row_item r.
Proof.
  rewrite rows_dict_update. intros H.
  apply update_elem in H as [H|H]; [inversion H|].
  apply list_elem_of_fmap in H as (r & -> & Hr). now exists r.
Qed.

Lemma store_keys_kept (rs : list (str * str)) (k : key) :
  k ∈ PyDict.keys (rows_dict rs []) ↔ ∃ r, r ∈ kept_rows rs ∧ k = KStr r.1.
Proof.
  rewrite rows_dict_update, update_keys_elem. split.
  - intros [H|H]; [inversion H|].
    apply list_elem_of_fmap in H as (kv & -> & H).
    apply list_elem_of_fmap in H as (r & -> & Hr). now exists r.
  - intros (r & Hr & ->). right.
    change (KStr r.1) with (row_item r).1.
    now apply list_elem_of_fmap_2, list_elem_of_fmap_2.
Qed.

(** X17. Saving and starting again: when the file name is [config.yaml],
    the file can be written, at least one row is kept and no kept key is
    mirrored under a name of the runtime or of a method, [on_load] on the
    file system that [on_save_button_pressed] left succeeds, with the
    entries of the saved store, the same displayed keys, and index 0. *)
Theorem on_save_then_on_load (self : Configurator) (notify_ : bool)
    (fs : filesystem) :
  config_filename self = py "config.yaml" →
  writable fs (py "config.yaml") = true →
  kept_rows (rows self) ≠ [] →
  Forall (λ r, ordinary_key (KStr r.1)) (kept_rows (rows self)) →
  let res := on_save_button_pressed self notify_ fs in
  ∃ cfg, on_load res.1.2 = Ok (cfg, keys res.1.1, 0%Z)
         ∧ Config.entries cfg = Config.entries (config res.1.1).
Proof.
  intros Hfn Hw Hne Hord res. subst res.
  rewrite on_save_keys.
  assert (Hfile := on_save_done self notify_ fs).
  assert (Hcfg : Config.entries (config (on_save_button_pressed self notify_ fs).1.1)
                 = rows_dict (rows self) []).
  { rewrite on_save_config, <- rows_dict_update. reflexivity. }
  rewrite Hcfg in *.
  assert (Hdone : (on_save_button_pressed self notify_ fs).2 = Done).
  { rewrite on_save_button_pressed_eq, Hfn, Hw. reflexivity. }
  specialize (Hfile Hdone). rewrite Hfn in Hfile.
  set (store := rows_dict (rows self) []) in *.
  assert (Hstore_ne : store ≠ []).
  { destruct (kept_rows (rows self)) as [|r kept] eqn:Hk; [now contradict Hne|].
    assert (Hin : KStr r.1 ∈ PyDict.keys store).
    { apply store_keys_kept. exists r. rewrite Hk. split; [left|reflexivity]. }
    intros E. rewrite E in Hin. inversion Hin. }
  destruct (load_file_ok _ _ _ Hfile) as (cfg & Hl & He & Hm).
  - intros E. apply Hstore_ne. now destruct store.
  - rewrite keys_transform. apply rows_dict_wf.
  - apply Forall_fmap, Forall_forall. intros kv Hkv.
    apply store_elem_kept in Hkv as (r & Hr & ->).
    rewrite Forall_forall in Hord. exact (Hord r Hr).
  - exists cfg.
    rewrite (transform_entry_back _ _ store mangle_round_trip) in He.
    split; [|exact He].
    unfold on_load. rewrite Hl. unfold call_method. rewrite Hm.
    + now rewrite He.
    + apply (bool_decide_unpack _). vm_compute. reflexivity.
Qed.

Lemma on_save_then_on_load_witness :
  let self := mk_app Config.empty [] [(py "host", py "example.org"); (py "new_key", []);
                                      (py "port", py "8080")]
                     (py "config.yaml") [] false in
  let res := on_save_button_pressed self true fresh_fs in
  kept_rows (rows self) = [(py "host", py "example.org"); (py "port", py "8080")]
  ∧ ∃ cfg, on_load res.1.2
           = Ok (cfg, [KStr (py "host"); KStr (py "port")], 0%Z)
           ∧ Config.entries cfg
             = [(KStr (py "host"), VStr (py "example.org"));
                (KStr (py "port"), VStr (py "8080"))].
Proof.
  intros self res.
  assert (Hk : kept_rows (rows self)
               = [(py "host", py "example.org"); (py "port", py "8080")])
    by (vm_compute; reflexivity).
  split; [exact Hk|].
  assert (Hne : kept_rows (rows self) ≠ []) by (rewrite Hk; discriminate).
  assert (Hord : Forall (λ r, ordinary_key (KStr r.1)) (kept_rows (rows self))).
  { rewrite Hk. repeat constructor; unfold ordinary_key; cbn [key_avoids fst];
      apply (bool_decide_unpack _); vm_compute; reflexivity. }
  exact (on_save_then_on_load self true fresh_fs eq_refl eq_refl Hne Hord).
Defined.

(** ** [compose] and [on_add_row_button_pressed] *)

Lemma deref_entry_eta (a : gmap str value) (k : key) (v : value) :
  (k, (deref_entry a (k, v)).2) = deref_entry a (k, v).
Proof. unfold deref_entry. cbn [fst snd]. now destruct (names_table k). Qed.

Lemma map_item_entries (cfg : Config.t) (d' : list (key * value)) :
  NoDup (PyDict.keys (Config.entries cfg)) →
  (∀ kv, kv ∈ d' → kv ∈ Config.entries cfg) →
  map (λ k, (k, default (VStr []) (Config.item cfg k))) (PyDict.keys d')
  = freeze (Config.attrs cfg) d'.
Proof.
  intros Hnd. induction d' as [|[k v] d' IH]; intros Hsub; [reflexivity|].
  cbn [PyDict.keys fmap list_fmap map freeze fst] in *. unfold Config.item at 1.
  rewrite (get_in_nodup _ k v Hnd) by (apply Hsub; left).
  cbn [fmap option_fmap option_map default]. unfold id.
  rewrite deref_entry_eta. f_equal. apply IH. intros kv Hkv. apply Hsub. now right.
Qed.

Section ScreenFacts.

Variable widget : Type.
Variable Input : value → value → str → result widget.

Lemma compose_loop_run (cfg : Config.t) (ks : list key) :
  Config.attrs cfg !! py "get" = None →
  compose_loop widget Input cfg ks
  = build_rows widget Input
      (map (λ k, (k, default (VStr []) (Config.item cfg k))) ks).
Proof.
  intros Hg. induction ks as [|k ks IH]; [reflexivity|].
  cbn [compose_loop build_rows map]. unfold call_method. rewrite Hg, IH.
  reflexivity.
Qed.

End ScreenFacts.

(** X18. When the displayed keys are the keys of the store, in its order,
    and the store has no attribute [get], [compose] builds one [Row] for
    every entry of the store, in order, from the key and the value of the
    entry as a reader of the store sees it, and stops with the error of the
    first [Input] that refuses its value or its id. This holds whatever
    [Input] accepts. *)
Theorem compose_rows_of_store (widget : Type)
    (Input : value → value → str → result widget) (self : Configurator) :
  keys self = PyDict.keys (Config.entries (config self)) →
  NoDup (PyDict.keys (Config.entries (config self))) →
  Config.attrs (config self) !! py "get" = None →
  compose_rows widget Input self
  = build_rows widget Input
      (freeze (Config.attrs (config self)) (Config.entries (config self)))
  ∧ (no_table (Config.entries (config self)) →
     compose_rows widget Input self
     = build_rows widget Input (Config.entries (config self))).
Proof.
  intros Hk Hnd Hg.
  assert (E : compose_rows widget Input self
              = build_rows widget Input
                  (freeze (Config.attrs (config self)) (Config.entries (config self)))).
  { unfold compose_rows. rewrite (compose_loop_run _ _ _ _ Hg), Hk.
    f_equal. apply map_item_entries; [exact Hnd|auto]. }
  split; [exact E|]. intros Hnt. now rewrite E, freeze_no_table.
Qed.

Lemma compose_rows_of_store_witness :
  let cfg := Config.mk [(KStr (py "a"), VStr (py "x")); (KStr (py "n"), VInt 5)]
                       (<[py "n" := VInt 5]> {[ py "a" := VStr (py "x") ]}) in
  let self := mk_app cfg [KStr (py "a"); KStr (py "n")] [] (py "config.yaml") [] false in
  let strings := mk_app (Config.mk [(KStr (py "a"), VStr (py "x"))] {[ py "a" := VStr (py "x") ]})
                        [KStr (py "a")] [] (py "config.yaml") [] false in
  compose_rows _ text_input self = Raise TypeError
  ∧ compose_rows _ text_input strings
    = Ok [mk_row (py "a", py "a", py "keystr") (py "x", py "a_value", py "valuestr")].
Proof.
  intros cfg self strings. split.
  - rewrite (proj1 (compose_rows_of_store _ text_input self eq_refl
                      ltac:(apply (bool_decide_unpack _); vm_compute; reflexivity)
                      eq_refl)).
    reflexivity.
  - rewrite (proj1 (compose_rows_of_store _ text_input strings eq_refl
                      ltac:(apply (bool_decide_unpack _); vm_compute; reflexivity)
                      eq_refl)).
    reflexivity.
Defined.

Lemma new_key_not_stored (rs : list (str * str)) :
  KStr new_key ∉ PyDict.keys (rows_dict rs []).
Proof.
  intros H. apply store_keys_kept in H as (r & Hr & E).
  apply list_elem_of_filter in Hr as [Hne _]. inversion E. congruence.
Qed.

(** X19. [on_add_row_button_pressed] leaves the file system, the store,
    the outcome of the save handler called with [notify=False], and the
    notifications as they were. When the save ended, the displayed keys are
    the keys of the store followed by ['new_key'], which is not a key of
    the store, and [compose] then builds the rows of the entries of the
    store followed by the row of [('new_key', '')], whatever [Input]
    accepts. When the save raised, the application is the one the save
    handler left: no key is added. *)
Theorem on_add_row_appends_new_key (widget : Type)
    (Input : value → value → str → result widget)
    (self : Configurator) (fs : filesystem) :
  let saved := on_save_button_pressed self false fs in
  let res := on_add_row_button_pressed self fs in
  let store := Config.entries (config res.1.1) in
  res.1.2 = saved.1.2
  ∧ res.2 = saved.2
  ∧ config res.1.1 = config saved.1.1
  ∧ notifications res.1.1 = notifications self
  ∧ (KStr new_key ∉ PyDict.keys store)
  ∧ (saved.2 = Done →
     keys res.1.1 = PyDict.keys store ++ [KStr new_key]
     ∧ compose_rows widget Input res.1.1
       = build_rows widget Input (store ++ [(KStr new_key, VStr [])]))
  ∧ (∀ e, saved.2 = Raised e → res.1.1 = saved.1.1).
Proof.
  intros saved res store. subst saved res store.
  unfold on_add_row_button_pressed.
  rewrite on_save_button_pressed_eq.
  set (d := rows_dict (rows self) []).
  assert (Hnew : KStr new_key ∉ PyDict.keys d) by apply new_key_not_stored.
  assert (Hnd : NoDup (PyDict.keys d)) by apply rows_dict_wf.
  destruct (writable fs (config_filename self));
    cbn [fst snd config keys notifications Config.entries].
  - do 4 (split; [reflexivity|]). split; [exact Hnew|]. split; [|discriminate].
    intros _. split; [reflexivity|].
    unfold compose_rows. cbn [config keys].
    rewrite compose_loop_run by reflexivity. f_equal.
    rewrite map_app, (map_item_entries (Config.mk d ∅) d Hnd) by auto.
    cbn [Config.attrs]. rewrite (freeze_no_table ∅ d (rows_dict_no_table (rows self))).
    cbn [map]. unfold Config.item. cbn [Config.entries].
    now rewrite (get_notin d _ Hnew).
  - do 4 (split; [reflexivity|]). split; [exact Hnew|]. split; [discriminate|].
    reflexivity.
Qed.

Lemma on_add_row_appends_new_key_witness :
  let self := mk_app Config.empty [] [(py "a", py "1"); (py "new_key", py "typed")]
                     (py "config.yaml") [] false in
  let read_only := mk_fs (λ _, false) (λ _, false) ∅ in
  let ok := on_add_row_button_pressed self fresh_fs in
  let ko := on_add_row_button_pressed self read_only in
  (on_save_button_pressed self false fresh_fs).2 = Done
  ∧ keys ok.1.1 = [KStr (py "a"); KStr (py "new_key")]
  ∧ compose_rows _ text_input ok.1.1
    = Ok [mk_row (py "a", py "a", py "keystr") (py "1", py "a_value", py "valuestr");
          mk_row (py "new_key", py "new_key", py "keystr")
                 ([], py "new_key_value", py "valuestr")]
  ∧ (on_save_button_pressed self false read_only).2 = Raised OSError
  ∧ ko.1.1 = (on_save_button_pressed self false read_only).1.1
  ∧ keys ko.1.1 = [KStr (py "a")].
Proof.
  intros self read_only ok ko.
  assert (H1 : (on_save_button_pressed self false fresh_fs).2 = Done) by reflexivity.
  assert (H2 : (on_save_button_pressed self false read_only).2 = Raised OSError)
    by reflexivity.
  destruct (on_add_row_appends_new_key _ text_input self fresh_fs)
    as (_ & _ & _ & _ & _ & Hok & _).
  destruct (on_add_row_appends_new_key _ text_input self read_only)
    as (_ & _ & _ & _ & _ & _ & Hko).
  destruct (Hok H1) as [Hk Hc].
  split; [exact H1|]. split; [exact Hk|].
  split; [subst ok; rewrite Hc; reflexivity|].
  split; [exact H2|]. split; [exact (Hko OSError H2)|reflexivity].
Defined.

(** ** More on the save handler *)

(** X20. The key ['new_key'] is never stored and never written, whatever
    the value typed in its row: after the save handler it is no key of the
    store, no displayed key, and, when the save ended, no key of a block of
    the file. *)
Theorem new_key_never_saved (self : Configurator) (notify_ : bool)
    (fs : filesystem) :
  let res := on_save_button_pressed self notify_ fs in
  PyDict.get (KStr new_key) (Config.entries (config res.1.1)) = None
  ∧ (KStr new_key ∉ keys res.1.1)
  ∧ (res.2 = Done →
     ∃ doc, files res.1.2 !! config_filename self = Some doc
            ∧ (KStr new_key ∉ PyDict.keys doc)).
Proof.
  intros res. subst res.
  assert (Hdone := on_save_done self notify_ fs).
  rewrite on_save_keys.
  assert (Hcfg : Config.entries (config (on_save_button_pressed self notify_ fs).1.1)
                 = rows_dict (rows self) []).
  { rewrite on_save_config, <- rows_dict_update. reflexivity. }
  rewrite Hcfg in *.
  split; [apply get_notin, new_key_not_stored|].
  split; [apply new_key_not_stored|].
  intros Hr. eexists. split; [exact (Hdone Hr)|].
  rewrite keys_transform. apply new_key_not_stored.
Qed.

Lemma new_key_never_saved_witness :
  let self := mk_app Config.empty [] [(py "a", py "1"); (py "new_key", py "typed")]
                     (py "config.yaml") [] false in
  let res := on_save_button_pressed self true fresh_fs in
  res.2 = Done
  ∧ files res.1.2 !! py "config.yaml" = Some [(KStr (py "a"), VStr (py "1"))]
  ∧ ∃ doc, files res.1.2 !! py "config.yaml" = Some doc
           ∧ (KStr new_key ∉ PyDict.keys doc).
Proof.
  intros self res.
  assert (Hr : res.2 = Done) by reflexivity.
  destruct (new_key_never_saved self true fresh_fs) as (_ & _ & H).
  split; [exact Hr|]. split; [reflexivity|exact (H Hr)].
Defined.

Lemma rows_dict_get (k : str) (rs : list (str * str)) (acc : PyDict.t) :
  k ≠ new_key →
  PyDict.get (KStr k) (rows_dict rs acc)
  = match last (filter (λ r, r.1 = k) rs) with
    | Some r => Some (VStr r.2)
    | None => PyDict.get (KStr k) acc
    end.
Proof.
  intros Hk. revert acc. induction rs as [|[k0 v0] rs IH]; intros acc; [reflexivity|].
  cbn [rows_dict]. rewrite filter_cons. cbn [fst].
  case_bool_decide as Hs; cbn [negb].
  - subst k0. rewrite decide_False by congruence. apply IH.
  - rewrite IH. destruct (decide (k0 = k)) as [->|Hne].
    + rewrite last_cons.
      match goal with |- context [last ?l] => destruct (last l) end; [reflexivity|].
      apply get_setitem_eq.
    + match goal with |- context [last ?l] => destruct (last l) end; [reflexivity|].
      apply get_setitem_ne. congruence.
Qed.

(** X21. When several rows have the same key, the store holds the value of
    the last of them: after the save handler, a key other than ['new_key']
    holds the value of the last row with that key, and is absent when no
    row has it. *)
Theorem repeated_row_key_last_wins (self : Configurator) (notify_ : bool)
    (fs : filesystem) (k : str) :
  k ≠ new_key →
  PyDict.get (KStr k)
    (Config.entries (config (on_save_button_pressed self notify_ fs).1.1))
  = (λ r, VStr r.2) <$> last (filter (λ r, r.1 = k) (rows self)).
Proof.
  intros Hk. rewrite on_save_config, <- rows_dict_update. cbn [Config.entries].
  rewrite (rows_dict_get k _ [] Hk).
  match goal with |- context [last ?l] => destruct (last l) end; reflexivity.
Qed.

Lemma repeated_row_key_last_wins_witness :
  let self := mk_app Config.empty []
                     [(py "a", py "1"); (py "b", py "2"); (py "a", py "3")]
                     (py "config.yaml") [] false in
  py "a" ≠ new_key
  ∧ Config.entries (config (on_save_button_pressed self true fresh_fs).1.1)
    = [(KStr (py "a"), VStr (py "3")); (KStr (py "b"), VStr (py "2"))]
  ∧ PyDict.get (KStr (py "a"))
      (Config.entries (config (on_save_button_pressed self true fresh_fs).1.1))
    = Some (VStr (py "3")).
Proof.
  intros self.
  assert (Hk : py "a" ≠ new_key) by discriminate.
  split; [exact Hk|]. split; [reflexivity|].
  rewrite (repeated_row_key_last_wins self true fresh_fs (py "a") Hk).
  reflexivity.
Defined.

(** X22. When the file cannot be opened for writing, the save handler and
    the quit handler raise [OSError] and leave the file system as it was;
    nothing is notified and the application does not exit; but the store
    and the displayed keys are already those of the rows. *)
Theorem handlers_on_unwritable_file (self : Configurator) (notify_ : bool)
    (fs : filesystem) :
  writable fs (config_filename self) = false →
  let res := on_save_button_pressed self notify_ fs in
  res.2 = Raised OSError
  ∧ res.1.2 = fs
  ∧ notifications res.1.1 = notifications self
  ∧ exited res.1.1 = exited self
  ∧ Config.entries (config res.1.1)
    = PyDict.update [] (map row_item (kept_rows (rows self)))
  ∧ keys res.1.1 = PyDict.keys (Config.entries (config res.1.1))
  ∧ on_quit_button_pressed self fs = (res.1.1, fs, Raised OSError).
Proof.
  intros Hw res. subst res. unfold on_quit_button_pressed.
  rewrite on_save_keys, on_save_config.
  rewrite !on_save_button_pressed_eq, Hw. cbn [fst snd notifications exited].
  now repeat split.
Qed.

Lemma handlers_on_unwritable_file_witness :
  let self := mk_app (Config.mk [(KStr (py "a"), VStr (py "0"))] ∅) [KStr (py "a")]
                     [(py "b", py "1")] (py "config.yaml") [] false in
  let fs := mk_fs (λ _, false) (λ _, false)
                  {[ py "config.yaml" := [(KStr (py "a"), VStr (py "0"))] ]} in
  writable fs (config_filename self) = false
  ∧ on_quit_button_pressed self fs
    = (mk_app (Config.mk [(KStr (py "b"), VStr (py "1"))] ∅) [KStr (py "b")]
              [(py "b", py "1")] (py "config.yaml") [] false,
       fs, Raised OSError).
Proof.
  intros self fs.
  assert (Hw : writable fs (config_filename self) = false) by reflexivity.
  split; [exact Hw|].
  destruct (handlers_on_unwritable_file self false fs Hw) as (_ & _ & _ & _ & _ & _ & H).
  rewrite H. reflexivity.
Defined.

(** X23. The save handler touches one file: every path other than the file
    name of the input holds what it held, whatever the outcome. *)
Theorem save_handler_touches_one_file (self : Configurator) (notify_ : bool)
    (fs : filesystem) (other : str) :
  other ≠ config_filename self →
  files (on_save_button_pressed self notify_ fs).1.2 !! other = files fs !! other.
Proof.
  intros Hne. rewrite on_save_button_pressed_eq.
  destruct (writable fs _); [|reflexivity].
  cbn [fst snd files write_file]. now rewrite !lookup_insert_ne by congruence.
Qed.

Lemma save_handler_touches_one_file_witness :
  let self := mk_app Config.empty [] [(py "a", py "1")] (py "config.yaml") [] false in
  let fs := write_file (py "notes.yaml") [(KStr (py "n"), VInt 1)] fresh_fs in
  py "notes.yaml" ≠ config_filename self
  ∧ files (on_save_button_pressed self true fs).1.2 !! py "notes.yaml"
    = Some [(KStr (py "n"), VInt 1)].
Proof.
  intros self fs.
  assert (Hne : py "notes.yaml" ≠ config_filename self) by discriminate.
  split; [exact Hne|].
  rewrite (save_handler_touches_one_file self true fs _ Hne). reflexivity.
Defined.

(** X24. Saving again with the same rows changes nothing but the
    notifications: the second call of the save handler, on the application
    and the file system that the first one left, gives the same store, the
    same displayed keys, the same file system and the same outcome. *)
Theorem save_handler_twice (self : Configurator) (n1 n2 : bool) (fs : filesystem) :
  let res1 := on_save_button_pressed self n1 fs in
  let res2 := on_save_button_pressed res1.1.1 n2 res1.1.2 in
  config res2.1.1 = config res1.1.1
  ∧ keys res2.1.1 = keys res1.1.1
  ∧ res2.1.2 = res1.1.2
  ∧ res2.2 = res1.2.
Proof.
  intros res1 res2. subst res2 res1.
  rewrite (on_save_button_pressed_eq self).
  destruct (writable fs (config_filename self)) eqn:Hw.
  - rewrite on_save_button_pressed_eq.
    assert (E : ∀ a, rows (if n1 then notify a (saved_notification (config_filename self)) else a) = rows a
                     ∧ config_filename (if n1 then notify a (saved_notification (config_filename self)) else a)
                       = config_filename a).
    { intros a. now destruct n1. }
    cbn [fst snd]. destruct (E (mk_app (Config.mk (rows_dict (rows self) []) ∅)
                      (PyDict.keys (Config.entries (Config.mk (rows_dict (rows self) []) ∅)))
                      (rows self) (config_filename self) (notifications self) (exited self)))
      as [-> ->].
    cbn [rows config_filename writable write_file]. rewrite Hw.
    cbn [fst snd config keys]. rewrite !write_file_twice.
    destruct n1, n2; now repeat split.
  - cbn [fst snd]. rewrite on_save_button_pressed_eq.
    cbn [rows config_filename]. rewrite Hw. now repeat split.
Qed.

(** ** Keys that the runtime refuses *)

Lemma setitem_refused (self : Config.t) (s : str) (v : value) :
  re_sub_spaces s ∈ [py "__class__"; py "__weakref__"] →
  ∃ e, Config.__setitem__ self (KStr s) v
       = (Config.mk (PyDict.setitem (KStr s) v (Config.entries self))
                    (Config.attrs self), Raised e).
Proof.
  intros Hs. unfold Config.__setitem__, py_setattr. cbn [Config.attrs Config.entries].
  apply elem_of_cons in Hs as [->|Hs].
  - exists TypeError. reflexivity.
  - apply list_elem_of_singleton in Hs. rewrite Hs. exists AttributeError. reflexivity.
Qed.

Lemma load_loop_refused (items : list (key * value)) (cfg : Config.t) :
  (∃ s v, (KStr s, v) ∈ items
          ∧ re_sub_spaces s ∈ [py "__class__"; py "__weakref__"]) →
  ∃ e, Config.load_loop cfg items = Raise e.
Proof.
  revert cfg. induction items as [|[k v] items IH]; intros cfg (s & w & Hin & Hs).
  - inversion Hin.
  - rewrite load_loop_cons.
    destruct (if is_str v then _ else _) as [|e]; [|now exists e].
    apply elem_of_cons in Hin as [Heq|Hin].
    + inversion Heq; subst.
      destruct (setitem_refused cfg s (transform_top_level Config._unmangle v) Hs)
        as [e ->].
      now exists e.
    + destruct (Config.__setitem__ cfg k _) as [cfg1 [|e]]; [|now exists e].
      apply IH. now exists s, w.
Qed.

(** X25. A key mirrored as [__class__] or [__weakref__]: [__setitem__]
    stores the item and raises, leaving the attributes as they were; and a
    file with such a key cannot be loaded. *)
Theorem runtime_key_refused :
  (∀ (self : Config.t) (s : str) (v : value),
     re_sub_spaces s ∈ [py "__class__"; py "__weakref__"] →
     ∃ e, Config.__setitem__ self (KStr s) v
          = (Config.mk (PyDict.setitem (KStr s) v (Config.entries self))
                       (Config.attrs self), Raised e))
  ∧ (∀ (path : str) (fs : filesystem) (file : list (key * value)) (s : str) (v : value),
       files fs !! path = Some file →
       (KStr s, v) ∈ file →
       re_sub_spaces s ∈ [py "__class__"; py "__weakref__"] →
       ∃ e, Config.load path fs = Raise e).
Proof.
  split; [exact setitem_refused|].
  intros path fs file s v Hf Hin Hs.
  assert (Hne : file ≠ []) by (intros ->; inversion Hin).
  rewrite (load_of_file path fs file Hf Hne). apply load_loop_refused.
  assert (Hkey : KStr s ∈ PyDict.keys (PyDict.update [] file)).
  { apply update_keys_elem. right. change (KStr s) with (KStr s, v).1.
    now apply list_elem_of_fmap_2. }
  apply list_elem_of_fmap in Hkey as ([k' v'] & Hk' & Hin').
  cbn in Hk'. subst k'. now exists s, v'.
Qed.

Lemma runtime_key_refused_witness :
  let self := mk_app Config.empty [] [(py "__class__", py "x")] (py "config.yaml") [] false in
  let res := on_save_button_pressed self true fresh_fs in
  res.2 = Done
  ∧ files res.1.2 !! py "config.yaml" = Some [(KStr (py "__class__"), VStr (py "x"))]
  ∧ Config.load (py "config.yaml") res.1.2 = Raise TypeError
  ∧ ∃ e, Config.load (py "config.yaml") res.1.2 = Raise e.
Proof.
  intros self res.
  assert (Hf : files res.1.2 !! py "config.yaml"
               = Some [(KStr (py "__class__"), VStr (py "x"))]) by reflexivity.
  split; [reflexivity|]. split; [exact Hf|]. split; [reflexivity|].
  destruct runtime_key_refused as [_ H].
  apply (H _ _ _ (py "__class__") (VStr (py "x")) Hf); [left|].
  apply (bool_decide_unpack _). vm_compute. reflexivity.
Defined.

(** X26. A start that succeeds: [on_load] returns a store only from a
    [config.yaml] that exists and either has at least one block or is the
    text [{}]; the displayed keys are then the keys of the store, without
    repetition, they are the keys that occur in the file, and the index
    is 0. *)
Theorem on_load_ok (fs : filesystem) (cfg : Config.t) (ks : list key) (i : Z) :
  on_load fs = Ok (cfg, ks, i) →
  ∃ file : list (key * value),
    files fs !! py "config.yaml" = Some file
    ∧ (file = [] → py "config.yaml" ∈ empty_mappings fs)
    ∧ Config.load (py "config.yaml") fs = Ok cfg
    ∧ ks = PyDict.keys (Config.entries cfg)
    ∧ NoDup ks
    ∧ (∀ k, k ∈ ks ↔ k ∈ file.*1)
    ∧ i = 0%Z.
Proof.
  unfold on_load. intros H.
  destruct (Config.load (py "config.yaml") fs) as [cfg'|e] eqn:Hl; [|discriminate].
  destruct (call_method _ _); [|discriminate]. inversion H; subst.
  destruct (load_inv _ _ _ Hl) as (file & Hf & Hne & _).
  destruct (load_keys _ _ _ Hl) as (file' & Hf' & He).
  assert (E : Some file' = Some file).
  { transitivity (files fs !! py "config.yaml"); [symmetry; exact Hf'|exact Hf]. }
  inversion E; subst file'.
  exists file. split; [exact Hf|]. split; [exact Hne|]. split; [reflexivity|].
  split; [reflexivity|]. rewrite He.
  split; [apply update_wf; constructor|]. split; [|reflexivity].
  intros k. rewrite update_keys_elem. split.
  - intros [Hk|Hk]; [inversion Hk|exact Hk].
  - now right.
Qed.

Lemma on_load_ok_witness :
  let file := [(KStr (py "a"), VStr (py "olleh")); (KInt 7, VBool true)] in
  let fs := write_file (py "config.yaml") file fresh_fs in
  let fs0 := mk_host (λ _, false) (λ _, true) {[ py "config.yaml" := [] ]}
                     {[ py "config.yaml" ]} in
  (∃ cfg, on_load fs = Ok (cfg, [KStr (py "a"); KInt 7], 0%Z)
          ∧ Config.entries cfg = [(KStr (py "a"), VStr (py "hello")); (KInt 7, VBool true)]
          ∧ NoDup [KStr (py "a"); KInt 7])
  ∧ on_load fs0 = Ok (Config.empty, [], 0%Z)
  ∧ py "config.yaml" ∈ empty_mappings fs0.
Proof.
  intros file fs fs0. split.
  - assert (Hl : on_load fs
                 = Ok (Config.mk [(KStr (py "a"), VStr (py "hello")); (KInt 7, VBool true)]
                         {[ py "a" := VStr (py "hello") ]},
                       [KStr (py "a"); KInt 7], 0%Z))
      by (vm_compute; reflexivity).
    eexists. split; [exact Hl|]. split; [reflexivity|].
    destruct (on_load_ok _ _ _ _ Hl) as (_ & _ & _ & _ & _ & Hnd & _).
    exact Hnd.
  - assert (Hl : on_load fs0 = Ok (Config.empty, [], 0%Z)) by (vm_compute; reflexivity).
    split; [exact Hl|].
    destruct (on_load_ok _ _ _ _ Hl) as (file0 & Hf & Hne & _).
    apply Hne.
    assert (E : Some file0 = Some []) by (rewrite <- Hf; reflexivity).
    now inversion E.
Defined.
